(** * simkl-mps: the tray control surface ([simkl_mps/tray_base.py])

    A shallow embedding of [TrayAppBase]: the monitoring controls
    ([start_monitoring], [stop_monitoring]), the status record
    ([update_status], [get_status_text]), the backlog handler
    ([process_backlog]) and the watch-threshold logic
    ([_apply_threshold_change], [_set_preset_threshold],
    [set_custom_watch_threshold]).

    Modelling conventions.
    - Python values that flow through the handlers are [pyval]s; a [dict]
      with string keys is a [gmap string pyval].
    - A method is a computation in the monad [M]: it threads the tray
      object together with the settings store and the trace of calls made
      to the collaborators, and it either returns or raises.  A mutation
      made before a [raise] persists, as in Python.
    - Calls that the source leaves unguarded return normally: the abstract
      methods [show_notification] and [update_icon], the logger,
      [get_setting], [scrobbler.initialize], [scrobbler.stop] and
      [set_notification_callback].  Calls that the source wraps in
      [try]/[except] ([scrobbler.start], [process_backlog], [set_setting],
      the dialog, [queue.get]) may raise.  What the collaborators answer is
      supplied by an [Engine].
    - Handlers that hand their work to a daemon thread ([process_backlog],
      [set_custom_watch_threshold]) are modelled by the body of the thread
      run to completion. *)

From Stdlib Require Import ZArith Bool String List Lia DecimalString.
From stdpp Require Import base option gmap strings.

Local Open Scope string_scope.
Local Open Scope Z_scope.
Local Open Scope list_scope.

(** ** Python values *)

Inductive pyval : Type :=
  | PyNone
  | PyBool (b : bool)
  | PyInt (n : Z)
  | PyStr (s : string).

(** [bool(v)] *)
Definition truthy (v : pyval) : bool :=
  match v with
  | PyNone => false
  | PyBool b => b
  | PyInt n => negb (n =? 0)
  | PyStr s => negb (String.eqb s "")
  end.

(** [v is None] *)
Definition is_None (v : pyval) : bool :=
  match v with PyNone => true | _ => false end.

(** A [bool] is an [int] in Python: [True == 1], [False == 0]. *)
Definition as_int (v : pyval) : option Z :=
  match v with
  | PyInt n => Some n
  | PyBool b => Some (if b then 1 else 0)
  | _ => None
  end.

(** [a == b] *)
Definition py_eq (a b : pyval) : bool :=
  match a, b with
  | PyNone, PyNone => true
  | PyStr s, PyStr t => String.eqb s t
  | _, _ =>
      match as_int a, as_int b with
      | Some m, Some n => m =? n
      | _, _ => false
      end
  end.

(** [a != b] *)
Definition py_ne (a b : pyval) : bool := negb (py_eq a b).

(** [str(n)] for an [int]. *)
Definition str_of_Z (n : Z) : string := NilZero.string_of_int (Z.to_int n).

(** [str(v)], which is what an f-string field [{v}] renders. *)
Definition py_str (v : pyval) : string :=
  match v with
  | PyNone => "None"
  | PyBool true => "True"
  | PyBool false => "False"
  | PyInt n => str_of_Z n
  | PyStr s => s
  end.

(** ** Exceptions *)

Inductive exn_class : Type :=
  | QueueEmpty        (* queue.Empty *)
  | TypeError
  | AttributeError
  | OtherException.   (* any other subclass of Exception *)

Record exn : Type := Exn { exn_cls : exn_class; exn_msg : string }.

Definition is_queue_Empty (e : exn) : bool :=
  match exn_cls e with QueueEmpty => true | _ => false end.

Inductive Res (A : Type) : Type :=
  | Ok (a : A)
  | Raise (e : exn).
Arguments Ok {A} a.
Arguments Raise {A} e.

(** ** The scrobbler object, as far as the tray looks into it

    [hasattr(o, 'x')] is [is_Some (x o)]. *)

Record MediaScrobbler : Type := mkMediaScrobbler {
  completion_threshold : option pyval
}.

Record Monitor : Type := mkMonitor {
  running : option bool;                      (* getattr(monitor, 'running', False) *)
  monitor_scrobbler : option MediaScrobbler   (* monitor.scrobbler *)
}.

Record SimklScrobbler : Type := mkSimklScrobbler {
  monitor : option Monitor
}.

(** ** Calls made to the collaborators *)

Inductive event : Type :=
  | Notification (title message : string)     (* show_notification(title, message) *)
  | IconUpdate                                (* update_icon() *)
  | ScrobblerInitialize                       (* scrobbler.initialize() *)
  | SetNotificationCallback                   (* set_notification_callback(...) *)
  | ScrobblerStart                            (* scrobbler.start() *)
  | ScrobblerStop                             (* scrobbler.stop() *)
  | BacklogRun                                (* ...scrobbler.process_backlog() *)
  | SetSetting (key : string) (value : pyval). (* set_setting(key, value) *)

Definition is_notification (e : event) : bool :=
  match e with Notification _ _ => true | _ => false end.

Definition notifications (tr : list event) : list event :=
  List.filter is_notification tr.

(** ** The tray object and its surroundings *)

Record Tray : Type := mkTray {
  scrobbler : option SimklScrobbler;   (* self.scrobbler; None is falsy *)
  monitoring_active : bool;
  status : string;
  status_details : string;
  last_scrobbled : pyval;
  is_first_run : bool;
  settings : gmap string pyval;        (* the store behind get_setting/set_setting *)
  trace : list event                   (* calls made so far, oldest first *)
}.

(** [TrayAppBase.__init__]: [first_run] is what the platform's
    [check_first_run] finds (the base class sets [False]), [store] the
    settings on disk. *)
Definition init (first_run : bool) (store : gmap string pyval) : Tray :=
  {| scrobbler := None; monitoring_active := false;
     status := "stopped"; status_details := "";
     last_scrobbled := PyNone; is_first_run := first_run;
     settings := store; trace := [] |}.

Definition with_scrobbler (v : option SimklScrobbler) (t : Tray) : Tray :=
  {| scrobbler := v; monitoring_active := monitoring_active t;
     status := status t; status_details := status_details t;
     last_scrobbled := last_scrobbled t; is_first_run := is_first_run t;
     settings := settings t; trace := trace t |}.

Definition with_monitoring_active (v : bool) (t : Tray) : Tray :=
  {| scrobbler := scrobbler t; monitoring_active := v;
     status := status t; status_details := status_details t;
     last_scrobbled := last_scrobbled t; is_first_run := is_first_run t;
     settings := settings t; trace := trace t |}.

Definition with_status (v : string) (t : Tray) : Tray :=
  {| scrobbler := scrobbler t; monitoring_active := monitoring_active t;
     status := v; status_details := status_details t;
     last_scrobbled := last_scrobbled t; is_first_run := is_first_run t;
     settings := settings t; trace := trace t |}.

Definition with_status_details (v : string) (t : Tray) : Tray :=
  {| scrobbler := scrobbler t; monitoring_active := monitoring_active t;
     status := status t; status_details := v;
     last_scrobbled := last_scrobbled t; is_first_run := is_first_run t;
     settings := settings t; trace := trace t |}.

Definition with_last_scrobbled (v : pyval) (t : Tray) : Tray :=
  {| scrobbler := scrobbler t; monitoring_active := monitoring_active t;
     status := status t; status_details := status_details t;
     last_scrobbled := v; is_first_run := is_first_run t;
     settings := settings t; trace := trace t |}.

Definition with_settings (v : gmap string pyval) (t : Tray) : Tray :=
  {| scrobbler := scrobbler t; monitoring_active := monitoring_active t;
     status := status t; status_details := status_details t;
     last_scrobbled := last_scrobbled t; is_first_run := is_first_run t;
     settings := v; trace := trace t |}.

Definition with_trace (v : list event) (t : Tray) : Tray :=
  {| scrobbler := scrobbler t; monitoring_active := monitoring_active t;
     status := status t; status_details := status_details t;
     last_scrobbled := last_scrobbled t; is_first_run := is_first_run t;
     settings := settings t; trace := v |}.

(** ** The monad of methods *)

Definition M (A : Type) : Type := Tray -> Res A * Tray.

Definition ret {A} (a : A) : M A := fun t => (Ok a, t).

Definition bind {A B} (m : M A) (k : A -> M B) : M B :=
  fun t =>
    match m t with
    | (Ok a, t') => k a t'
    | (Raise e, t') => (Raise e, t')
    end.

Definition raise {A} (e : exn) : M A := fun t => (Raise e, t).

(** [try: body  except Exception as e: handler(e)] *)
Definition try_except {A} (body : M A) (handler : exn -> M A) : M A :=
  fun t =>
    match body t with
    | (Ok a, t') => (Ok a, t')
    | (Raise e, t') => handler e t'
    end.

Definition self : M Tray := fun t => (Ok t, t).
Definition modify (f : Tray -> Tray) : M unit := fun t => (Ok tt, f t).
Definition emit (e : event) : M unit := modify (fun t => with_trace (trace t ++ [e]) t).

Notation "x <- m ;; k" := (bind m (fun x => k))
  (at level 64, m at next level, right associativity).
Notation "m ;;; k" := (bind m (fun _ => k))
  (at level 64, right associativity).

Definition show_notification (title message : string) : M unit :=
  emit (Notification title message).

Definition update_icon : M unit := emit IconUpdate.

(** ** Status *)

(** [status_map.get(self.status, "Unknown")] *)
Definition status_map (s : string) : string :=
  if String.eqb s "running" then "Running"
  else if String.eqb s "paused" then "Paused"
  else if String.eqb s "stopped" then "Stopped"
  else if String.eqb s "error" then "Error"
  else "Unknown".

Definition get_status_text (t : Tray) : string :=
  let status_text := status_map (status t) in
  let status_text :=
    if negb (String.eqb (status_details t) "")
    then status_text +:+ " - " +:+ status_details t else status_text in
  if truthy (last_scrobbled t)
  then status_text +:+ String (Ascii.ascii_of_nat 10) "Last: " +:+ py_str (last_scrobbled t)
  else status_text.

Definition update_status (new_status details : string) (last : pyval) : M unit :=
  t <- self ;;
  if negb (String.eqb new_status (status t))
     || negb (String.eqb details (status_details t))
     || py_ne last (last_scrobbled t)
  then
    modify (with_status new_status) ;;;
    modify (with_status_details details) ;;;
    (if truthy last then modify (with_last_scrobbled last) else ret tt) ;;;
    update_icon
  else ret tt.

(** ** What the collaborators do

    One [Engine] fixes the outcome of every outside call made during one
    handler run.  The scrobbler methods receive the scrobbler object and
    may change it ([start] sets [monitor.running], and so on). *)

Inductive backlog_result : Type :=
  | BacklogDict (d : gmap string pyval)   (* isinstance(result, dict) *)
  | BacklogValue (v : pyval).             (* the legacy shape *)

Record Engine : Type := mkEngine {
  new_scrobbler : SimklScrobbler;                              (* get_simkl_scrobbler()() *)
  scrobbler_initialize : SimklScrobbler -> bool * SimklScrobbler;
  scrobbler_start : SimklScrobbler -> Res bool * SimklScrobbler;
  scrobbler_stop : SimklScrobbler -> SimklScrobbler;
  scrobbler_process_backlog : MediaScrobbler -> Res backlog_result;
  set_setting_error : string -> pyval -> option exn;           (* Some e: set_setting raises e *)
  store_keeps : string -> pyval -> option pyval;   (* what a write that returns leaves under the key *)
  _ask_custom_threshold_dialog : pyval -> Res pyval;
  dialog_seconds : option nat   (* seconds until the dialog thread has put its value; None: never *)
}.

(** Modelled from the spec: [DEFAULT_THRESHOLD] is imported from
    [config_manager], which is not part of this file; the specification
    gives the default as 80 (and the menu labels 80% as the default). *)
Definition DEFAULT_THRESHOLD : pyval := PyInt 80.

Definition threshold_key : string := "watch_completion_threshold".

(** Modelled from the spec: the settings store behind
    [config_manager.set_setting(key, value)].  The specification has the
    setter persist a value under [key] and keeps the threshold an integer
    percent in [1,100]; it does not say what the setter does with any other
    value.  So what a write that returns leaves in the store is the
    [Engine]'s to say: under [key] the value [store_keeps] names, or the
    store as it was. *)
Definition store_after (E : Engine) (key : string) (value : pyval)
    (store : gmap string pyval) : gmap string pyval :=
  match store_keeps E key value with
  | Some kept => <[key := kept]> store
  | None => store
  end.

(** Modelled from the spec: [config_manager.get_setting(key, default)]
    reads the persisted value of [key], or [default] when there is none. *)
Definition get_setting (key : string) (dflt : pyval) : M pyval :=
  t <- self ;; ret (default dflt (settings t !! key)).

Section Handlers.

Variable E : Engine.

(** Modelled from the spec: [config_manager.set_setting(key, value)].
    The call either raises, and nothing is stored, or returns, and the store
    is [store_after] the write. *)
Definition set_setting (key : string) (value : pyval) : M unit :=
  emit (SetSetting key value) ;;;
  match set_setting_error E key value with
  | Some e => raise e
  | None => modify (fun t => with_settings (store_after E key value (settings t)) t)
  end.

(** [self.scrobbler.initialize()] *)
Definition call_initialize : M bool :=
  t <- self ;;
  match scrobbler t with
  | None => raise (Exn AttributeError "'NoneType' object has no attribute 'initialize'")
  | Some s =>
      emit ScrobblerInitialize ;;;
      modify (with_scrobbler (Some (snd (scrobbler_initialize E s)))) ;;;
      ret (fst (scrobbler_initialize E s))
  end.

(** [self.scrobbler.start()] *)
Definition call_start : M bool :=
  t <- self ;;
  match scrobbler t with
  | None => raise (Exn AttributeError "'NoneType' object has no attribute 'start'")
  | Some s =>
      emit ScrobblerStart ;;;
      modify (with_scrobbler (Some (snd (scrobbler_start E s)))) ;;;
      match fst (scrobbler_start E s) with
      | Ok started => ret started
      | Raise e => raise e
      end
  end.

(** [self.scrobbler.monitor.scrobbler.process_backlog()] *)
Definition call_process_backlog : M backlog_result :=
  t <- self ;;
  match scrobbler t with
  | None => raise (Exn AttributeError "'NoneType' object has no attribute 'monitor'")
  | Some s =>
      match monitor s with
      | None => raise (Exn AttributeError "object has no attribute 'monitor'")
      | Some m =>
          match monitor_scrobbler m with
          | None => raise (Exn AttributeError "object has no attribute 'scrobbler'")
          | Some ms =>
              emit BacklogRun ;;;
              match scrobbler_process_backlog E ms with
              | Ok r => ret r
              | Raise e => raise e
              end
          end
      end
  end.

(** ** Monitoring controls *)

(** [if hasattr(self.scrobbler, 'monitor') and
    hasattr(self.scrobbler.monitor, 'scrobbler'):
    ....set_notification_callback(self.show_notification)] *)
Definition register_notification_callback : M unit :=
  t <- self ;;
  match scrobbler t with
  | Some s =>
      match monitor s with
      | Some m =>
          match monitor_scrobbler m with
          | Some _ => emit SetNotificationCallback
          | None => ret tt
          end
      | None => ret tt
      end
  | None => ret tt
  end.

(** The first lines of [start_monitoring]: a scrobbler whose monitor is
    no longer running resets [monitoring_active]. *)
Definition check_monitor_running : M unit :=
  t <- self ;;
  match scrobbler t with
  | Some s =>
      match monitor s with
      | Some m =>
          if negb (default false (running m))
          then modify (with_monitoring_active false) else ret tt
      | None => ret tt
      end
  | None => ret tt
  end.

(** The part of [start_monitoring] after the scrobbler exists: register
    the notification callback, then the [try] block. *)
Definition start_scrobbler (is_manual_start : bool) : M bool :=
  register_notification_callback ;;;
  try_except
    (started <- call_start ;;
     if started then
       modify (with_monitoring_active true) ;;;
       update_status "running" "" PyNone ;;;
       t <- self ;;
       (if is_first_run t || is_manual_start
        then show_notification "simkl-mps" "Media monitoring started"
        else ret tt) ;;;
       ret true
     else
       modify (with_monitoring_active false) ;;;
       update_status "error" "Failed to start" PyNone ;;;
       show_notification "simkl-mps Error" "Failed to start monitoring" ;;;
       ret false)
    (fun e =>
       modify (with_monitoring_active false) ;;;
       update_status "error" (exn_msg e) PyNone ;;;
       show_notification "simkl-mps Error" ("Error starting monitoring: " +:+ exn_msg e) ;;;
       ret false).

(** [is_manual_start] is [_ is not None]: true for a menu click. *)
Definition start_monitoring (is_manual_start : bool) : M bool :=
  check_monitor_running ;;;
  t <- self ;;
  if negb (monitoring_active t) then
    match scrobbler t with
    | None =>
        modify (with_scrobbler (Some (new_scrobbler E))) ;;;
        initialized <- call_initialize ;;
        if negb initialized then
          update_status "error" "Failed to initialize" PyNone ;;;
          show_notification "simkl-mps Error" "Failed to initialize. Check your credentials." ;;;
          modify (with_monitoring_active false) ;;;
          ret false
        else start_scrobbler is_manual_start
    | Some _ => start_scrobbler is_manual_start
    end
  else ret true.

Definition stop_monitoring : M bool :=
  t <- self ;;
  if monitoring_active t then
    (match scrobbler t with
     | Some s =>
         emit ScrobblerStop ;;;
         modify (with_scrobbler (Some (scrobbler_stop E s)))
     | None => ret tt
     end) ;;;
    modify (with_monitoring_active false) ;;;
    update_status "stopped" "" PyNone ;;;
    show_notification "simkl-mps" "Media monitoring stopped" ;;;
    ret true
  else ret false.

(** ** Backlog *)

(** [v > 0] *)
Definition py_gt_0 (v : pyval) : M bool :=
  match as_int v with
  | Some n => ret (0 <? n)
  | None => raise (Exn TypeError "'>' not supported between these instances")
  end.

(** The [try] block of the worker [_process]. *)
Definition _process_body : M unit :=
  result <- call_process_backlog ;;
  match result with
  | BacklogDict d =>
      let count_value := default (PyInt 0) (d !! "processed") in
      let attempted := default (PyInt 0) (d !! "attempted") in
      let failures := default (PyBool false) (d !! "failed") in
      some_processed <- py_gt_0 count_value ;;
      if some_processed then
        show_notification "simkl-mps"
          ("Processed " +:+ py_str count_value +:+ " of " +:+ py_str attempted
           +:+ " backlog items")
      else
        some_attempted <- py_gt_0 attempted ;;
        if some_attempted && truthy failures then
          show_notification "simkl-mps"
            ("No backlog items processed successfully. " +:+ py_str attempted
             +:+ " items will be retried later.")
        else
          show_notification "simkl-mps" "No backlog items to process"
  | BacklogValue count =>
      positive <- py_gt_0 count ;;
      if positive then
        show_notification "simkl-mps"
          ("Processed " +:+ py_str count +:+ " backlog items")
      else
        show_notification "simkl-mps" "No backlog items to process"
  end.

(** The worker [_process] of [process_backlog]. *)
Definition _process : M Z :=
  try_except _process_body
    (fun e =>
       update_status "error" "" PyNone ;;;
       show_notification "simkl-mps Error" "Failed to process backlog") ;;;
  ret 0.

Definition process_backlog : M Z := _process ;;; ret 0.

(** ** Watch threshold *)

(** [self.scrobbler.monitor.scrobbler.completion_threshold = v], done only
    when the whole attribute chain exists. *)
Definition set_running_threshold (v : pyval) : M unit :=
  t <- self ;;
  match scrobbler t with
  | Some s =>
      match monitor s with
      | Some m =>
          match monitor_scrobbler m with
          | Some ms =>
              match completion_threshold ms with
              | Some _ =>
                  modify (with_scrobbler
                    (Some {| monitor := Some
                      {| running := running m;
                         monitor_scrobbler := Some {| completion_threshold := Some v |} |} |}))
              | None => ret tt
              end
          | None => ret tt
          end
      | None => ret tt
      end
  | None => ret tt
  end.

Definition _apply_threshold_change (new_threshold : pyval) : M unit :=
  current_threshold <- get_setting threshold_key DEFAULT_THRESHOLD ;;
  if negb (is_None new_threshold) && py_ne new_threshold current_threshold then
    try_except
      (set_setting threshold_key new_threshold ;;;
       show_notification "Settings Updated"
         ("Watch threshold set to " +:+ py_str new_threshold +:+ "%") ;;;
       set_running_threshold new_threshold ;;;
       update_icon)
      (fun e =>
         show_notification "Error" ("Failed to set watch threshold: " +:+ exn_msg e) ;;;
         update_icon)
  else if is_None new_threshold then update_icon
  else update_icon.

Definition _set_preset_threshold (threshold_value : pyval) : M Z :=
  current_threshold <- get_setting threshold_key DEFAULT_THRESHOLD ;;
  (if py_ne threshold_value current_threshold
   then _apply_threshold_change threshold_value
   else ret tt) ;;;
  ret 0.

(** The dialog thread: the value it puts on [result_queue]. *)
Definition _ask_in_thread (current_threshold : pyval) : pyval :=
  match _ask_custom_threshold_dialog E current_threshold with
  | Ok threshold_dialog_result => threshold_dialog_result
  | Raise _ => PyNone
  end.

(** [result_queue.get(timeout=timeout)]: the value put by the dialog
    thread if it arrived within [timeout] seconds, [queue.Empty] if not. *)
Definition result_queue_get (timeout : nat) (current_threshold : pyval) : M pyval :=
  match dialog_seconds E with
  | Some d =>
      if (d <=? timeout)%nat then ret (_ask_in_thread current_threshold)
      else raise (Exn QueueEmpty "")
  | None => raise (Exn QueueEmpty "")
  end.

Definition _process_result (current_threshold : pyval) : M unit :=
  try_except
    (new_threshold_from_queue <- result_queue_get 60 current_threshold ;;
     _apply_threshold_change new_threshold_from_queue)
    (fun e =>
       if is_queue_Empty e then
         show_notification "Timeout" "Custom threshold dialog timed out." ;;;
         _apply_threshold_change PyNone
       else _apply_threshold_change PyNone).

Definition set_custom_watch_threshold : M Z :=
  current_threshold <- get_setting threshold_key DEFAULT_THRESHOLD ;;
  _process_result current_threshold ;;;
  ret 0.

End Handlers.

(** ** The control surface

    The menu entries of [_build_pystray_menu_items] that act on the
    modelled state.  The entries that only open a file, a folder or a URL
    assign neither the status nor a setting and are left out. *)

Inductive action : Type :=
  | StartMonitoring (is_manual_start : bool)
  | StopMonitoring
  | ProcessBacklog
  | SetPresetThreshold (threshold_value : Z)
  | SetCustomThreshold.

(** The threshold submenu: three radio presets and the custom entry. *)
Definition threshold_submenu : list (string * action) :=
  [ ("65%", SetPresetThreshold 65);
    ("80% (Default)", SetPresetThreshold 80);
    ("90%", SetPresetThreshold 90);
    ("Custom...", SetCustomThreshold) ].

Definition _build_pystray_menu_items (t : Tray) : list (string * action) :=
  [ (if String.eqb (status t) "running"
     then ("Pause Monitoring", StopMonitoring)
     else ("Start Monitoring", StartMonitoring true));
    ("Process Backlog Now", ProcessBacklog) ]
  ++ threshold_submenu.

Definition run_action (E : Engine) (a : action) : M unit :=
  match a with
  | StartMonitoring manual => start_monitoring E manual ;;; ret tt
  | StopMonitoring => stop_monitoring E ;;; ret tt
  | ProcessBacklog => process_backlog E ;;; ret tt
  | SetPresetThreshold v => _set_preset_threshold E (PyInt v) ;;; ret tt
  | SetCustomThreshold => set_custom_watch_threshold E ;;; ret tt
  end.

(** States of the tray: it starts from [init]; a handler runs against
    some behaviour of the collaborators; between two handlers the
    scrobbler object may change on its own (the monitor thread ends). *)
Inductive reachable : Tray -> Prop :=
  | reach_init first_run store : reachable (init first_run store)
  | reach_action E a t :
      reachable t -> reachable (snd (run_action E a t))
  | reach_engine s t :
      reachable t -> is_Some (scrobbler t) ->
      reachable (with_scrobbler (Some s) t).

(** The three status values. *)
Definition status_ok (s : string) : Prop :=
  s = "stopped" \/ s = "running" \/ s = "error".

(** A threshold in range: an integer percentage between 1 and 100. *)
Definition valid_threshold (v : pyval) : bool :=
  match v with
  | PyInt n => (1 <=? n) && (n <=? 100)
  | _ => false
  end.

(** The threshold in force: the stored value, or the default. *)
Definition stored_threshold (t : Tray) : pyval :=
  default DEFAULT_THRESHOLD (settings t !! threshold_key).


(** ** Vocabulary of the properties *)

(** [self.scrobbler.monitor.scrobbler], when the chain exists. *)
Definition backlog_target (t : Tray) : option MediaScrobbler :=
  match scrobbler t with
  | Some s =>
      match monitor s with
      | Some m => monitor_scrobbler m
      | None => None
      end
  | None => None
  end.

(** The state after the handler made the calls [evs] and nothing else. *)
Definition after_calls (t : Tray) (evs : list event) : Tray :=
  with_trace (trace t ++ evs) t.

(** The consumer's bounded wait ends without a value: the dialog thread
    needs more than [timeout] seconds, or never answers. *)
Definition timed_out (E : Engine) (timeout : nat) : Prop :=
  match dialog_seconds E with
  | Some d => (timeout < d)%nat
  | None => True
  end.

(** The three ways [_apply_threshold_change] can go: nothing to do, the
    write fails, the write succeeds. *)
Inductive threshold_outcome (E : Engine) (v : pyval) (t t' : Tray) : Prop :=
  | threshold_kept :
      v = PyNone \/ py_eq v (stored_threshold t) = true ->
      t' = after_calls t [IconUpdate] ->
      threshold_outcome E v t t'
  | threshold_write_failed e :
      v <> PyNone -> py_eq v (stored_threshold t) = false ->
      set_setting_error E threshold_key v = Some e ->
      t' = after_calls t [SetSetting threshold_key v;
                          Notification "Error"
                            ("Failed to set watch threshold: " +:+ exn_msg e);
                          IconUpdate] ->
      threshold_outcome E v t t'
  | threshold_written :
      v <> PyNone -> py_eq v (stored_threshold t) = false ->
      set_setting_error E threshold_key v = None ->
      settings t' = store_after E threshold_key v (settings t) ->
      trace t' = trace t ++ [SetSetting threshold_key v;
                             Notification "Settings Updated"
                               ("Watch threshold set to " +:+ py_str v +:+ "%");
                             IconUpdate] ->
      monitoring_active t' = monitoring_active t ->
      status t' = status t ->
      status_details t' = status_details t ->
      last_scrobbled t' = last_scrobbled t ->
      (is_Some (scrobbler t) <-> is_Some (scrobbler t')) ->
      threshold_outcome E v t t'.

(** [not getattr(self.scrobbler.monitor, 'running', False)], for a
    scrobbler that has a monitor. *)
Definition monitor_stopped (t : Tray) : bool :=
  match scrobbler t with
  | Some s =>
      match monitor s with
      | Some m => negb (default false (running m))
      | None => false
      end
  | None => false
  end.

(** Monitoring is already running: the flag is set and the first lines of
    [start_monitoring] do not reset it. *)
Definition still_active (t : Tray) : bool :=
  monitoring_active t && negb (monitor_stopped t).

(** What [scrobbler.start()] did decides how the [try] block of a start
    ends: well ([None]), or with a detail string and a notification text. *)
Definition start_detail (started : Res bool) : option (string * string) :=
  match started with
  | Ok true => None
  | Ok false => Some ("Failed to start", "Failed to start monitoring")
  | Raise e => Some (exn_msg e, "Error starting monitoring: " +:+ exn_msg e)
  end.

(** The scrobbler a start calls [start()] on: the one at hand, or the new
    one as [initialize()] left it. *)
Definition start_target (E : Engine) (t : Tray) : SimklScrobbler :=
  match scrobbler t with
  | Some s => s
  | None => snd (scrobbler_initialize E (new_scrobbler E))
  end.

(** The failure a start that finds monitoring not running runs into, read
    off what the collaborators answer: [None] when it succeeds. *)
Definition start_failure_of (E : Engine) (t : Tray) : option (string * string) :=
  match scrobbler t with
  | Some s => start_detail (fst (scrobbler_start E s))
  | None =>
      if fst (scrobbler_initialize E (new_scrobbler E))
      then start_detail (fst (scrobbler_start E (start_target E t)))
      else Some ("Failed to initialize", "Failed to initialize. Check your credentials.")
  end.

(** The state [t'] a start leaves behind, given how it ended. *)
Definition start_outcome (manual : bool) (t : Tray) (failure : option (string * string))
    (t' : Tray) : Prop :=
  settings t' = settings t /\
  match failure with
  | None =>
      monitoring_active t' = true /\
      status t' = "running" /\ status_details t' = "" /\
      notifications (trace t')
      = notifications (trace t)
        ++ (if is_first_run t || manual
            then [Notification "simkl-mps" "Media monitoring started"] else [])
  | Some (detail, message) =>
      monitoring_active t' = false /\
      status t' = "error" /\ status_details t' = detail /\
      notifications (trace t')
      = notifications (trace t) ++ [Notification "simkl-mps Error" message]
  end.

(** A failure as the user sees it: the status "error" with [detail], and
    exactly one more notification, an error with [message]. *)
Definition failure_shown (t t' : Tray) (detail message : string) : Prop :=
  status t' = "error" /\ status_details t' = detail /\
  notifications (trace t')
  = notifications (trace t) ++ [Notification "simkl-mps Error" message].

(** The status after one handler run, read off the state before it and
    what the collaborators answer. *)
Definition status_after (E : Engine) (a : action) (t : Tray) : string :=
  match a with
  | StartMonitoring _ =>
      if still_active t then status t
      else match start_failure_of E t with
           | None => "running"
           | Some _ => "error"
           end
  | StopMonitoring => if monitoring_active t then "stopped" else status t
  | ProcessBacklog =>
      match fst (_process_body E t) with
      | Ok _ => status t
      | Raise _ => "error"
      end
  | SetPresetThreshold _ | SetCustomThreshold => status t
  end.

(** Some handler run takes a reachable tray from the status [from] to the
    status [to]. *)
Definition transition_occurs (from to : string) : Prop :=
  exists E a t,
    reachable t /\ status t = from /\ status (snd (run_action E a t)) = to.

(** Why a start failed: the detail string and the notification text that
    go with each of the three failing paths. *)
Inductive start_failure (E : Engine) : string -> string -> Prop :=
  | failed_initialize :
      fst (scrobbler_initialize E (new_scrobbler E)) = false ->
      start_failure E "Failed to initialize"
        "Failed to initialize. Check your credentials."
  | failed_start s :
      fst (scrobbler_start E s) = Ok false ->
      start_failure E "Failed to start" "Failed to start monitoring"
  | failed_exception s e :
      fst (scrobbler_start E s) = Raise e ->
      start_failure E (exn_msg e) ("Error starting monitoring: " +:+ exn_msg e).

Inductive start_result (E : Engine) (manual : bool) (t : Tray) : bool -> Tray -> Prop :=
  | start_succeeded t' :
      monitoring_active t' = true ->
      status t' = "running" -> status_details t' = "" ->
      settings t' = settings t ->
      notifications (trace t')
      = notifications (trace t)
        ++ (if is_first_run t || manual
            then [Notification "simkl-mps" "Media monitoring started"] else []) ->
      start_result E manual t true t'
  | start_failed t' detail message :
      start_failure E detail message ->
      monitoring_active t' = false ->
      status t' = "error" -> status_details t' = detail ->
      settings t' = settings t ->
      notifications (trace t')
      = notifications (trace t) ++ [Notification "simkl-mps Error" message] ->
      start_result E manual t false t'.

(** The transitions the specification lists. *)
Definition listed_transition (from to : string) : Prop :=
  (from = "stopped" /\ to = "running") \/
  (from = "running" /\ to = "stopped") \/
  (from = "running" /\ to = "error") \/
  (from = "error" /\ to = "stopped").

(** What one handler run can do to the status. *)
Definition status_step (a : action) (t t' : Tray) : Prop :=
  status t' = status t \/
  match a with
  | StartMonitoring _ =>
      still_active t = false /\ (status t' = "running" \/ status t' = "error")
  | StopMonitoring => monitoring_active t = true /\ status t' = "stopped"
  | ProcessBacklog => status t' = "error"
  | SetPresetThreshold _ | SetCustomThreshold => False
  end.

(** ** Sample collaborators, used to run the handlers on concrete inputs *)

Definition live_scrobbler (is_running : bool) : SimklScrobbler :=
  {| monitor := Some
       {| running := Some is_running;
          monitor_scrobbler := Some {| completion_threshold := Some (PyInt 80) |} |} |}.

Definition sample_engine : Engine :=
  {| new_scrobbler := live_scrobbler false;
     scrobbler_initialize := fun s => (true, s);
     scrobbler_start := fun _ => (Ok true, live_scrobbler true);
     scrobbler_stop := fun _ => live_scrobbler false;
     scrobbler_process_backlog := fun _ => Ok (BacklogValue (PyInt 0));
     set_setting_error := fun _ _ => None;
     store_keeps := fun _ value => if valid_threshold value then Some value else None;
     _ask_custom_threshold_dialog := fun _ => Ok PyNone;
     dialog_seconds := Some 5%nat |}.

Definition with_initialize (f : SimklScrobbler -> bool * SimklScrobbler) (E : Engine) : Engine :=
  {| new_scrobbler := new_scrobbler E;
     scrobbler_initialize := f;
     scrobbler_start := scrobbler_start E;
     scrobbler_stop := scrobbler_stop E;
     scrobbler_process_backlog := scrobbler_process_backlog E;
     set_setting_error := set_setting_error E;
     store_keeps := store_keeps E;
     _ask_custom_threshold_dialog := _ask_custom_threshold_dialog E;
     dialog_seconds := dialog_seconds E |}.

Definition with_start (f : SimklScrobbler -> Res bool * SimklScrobbler) (E : Engine) : Engine :=
  {| new_scrobbler := new_scrobbler E;
     scrobbler_initialize := scrobbler_initialize E;
     scrobbler_start := f;
     scrobbler_stop := scrobbler_stop E;
     scrobbler_process_backlog := scrobbler_process_backlog E;
     set_setting_error := set_setting_error E;
     store_keeps := store_keeps E;
     _ask_custom_threshold_dialog := _ask_custom_threshold_dialog E;
     dialog_seconds := dialog_seconds E |}.

Definition with_backlog (f : MediaScrobbler -> Res backlog_result) (E : Engine) : Engine :=
  {| new_scrobbler := new_scrobbler E;
     scrobbler_initialize := scrobbler_initialize E;
     scrobbler_start := scrobbler_start E;
     scrobbler_stop := scrobbler_stop E;
     scrobbler_process_backlog := f;
     set_setting_error := set_setting_error E;
     store_keeps := store_keeps E;
     _ask_custom_threshold_dialog := _ask_custom_threshold_dialog E;
     dialog_seconds := dialog_seconds E |}.

Definition with_dialog (f : pyval -> Res pyval) (secs : option nat) (E : Engine) : Engine :=
  {| new_scrobbler := new_scrobbler E;
     scrobbler_initialize := scrobbler_initialize E;
     scrobbler_start := scrobbler_start E;
     scrobbler_stop := scrobbler_stop E;
     scrobbler_process_backlog := scrobbler_process_backlog E;
     set_setting_error := set_setting_error E;
     store_keeps := store_keeps E;
     _ask_custom_threshold_dialog := f;
     dialog_seconds := secs |}.

(** A tray that has been started by hand and is monitoring. *)
Definition running_tray : Tray :=
  snd (start_monitoring sample_engine true (init false ∅)).

Definition partial_backlog : gmap string pyval :=
  <["processed" := PyInt 2]> (<["attempted" := PyInt 3]> (<["failed" := PyBool true]> ∅)).

(** ** Vocabulary of the further properties *)

(** The status and the monitoring flag tell the same story. *)
Definition status_agrees (t : Tray) : Prop :=
  (status t = "running" -> monitoring_active t = true) /\
  (status t = "stopped" -> monitoring_active t = false).

Definition is_initialize (e : event) : bool :=
  match e with ScrobblerInitialize => true | _ => false end.

(** How often [scrobbler.initialize()] has been called. *)
Definition initialize_calls (tr : list event) : nat :=
  length (List.filter is_initialize tr).

(** From [t] to [t']: calls were added to the trace, each of them allowed
    by [P], and a scrobbler that existed still exists. *)
Definition extends (P : event -> Prop) (t t' : Tray) : Prop :=
  (exists evs, trace t' = trace t ++ evs /\ Forall P evs) /\
  (is_Some (scrobbler t) -> is_Some (scrobbler t')).

(** A method that only makes calls allowed by [P]. *)
Definition calls_only {A : Type} (P : event -> Prop) (m : M A) : Prop :=
  forall t, extends P t (snd (m t)).

(** The calls every handler may make: notifications, icon refreshes and
    the scrobbler calls other than [initialize]. *)
Definition routine (e : event) : Prop :=
  match e with
  | ScrobblerInitialize | SetSetting _ _ => False
  | _ => True
  end.

(** A write of a threshold: the key is the threshold key and the value is
    not [None]. *)
Definition threshold_write (e : event) : Prop :=
  match e with
  | SetSetting key value => key = threshold_key /\ value <> PyNone
  | _ => True
  end.

(** The calls a threshold handler may make. *)
Definition threshold_call (e : event) : Prop :=
  threshold_write e /\ is_initialize e = false.

(** [self.scrobbler.monitor.scrobbler.completion_threshold], when the
    chain exists. *)
Definition running_threshold (t : Tray) : option pyval :=
  match backlog_target t with
  | Some ms => completion_threshold ms
  | None => None
  end.

(** ** Icon files ([_get_icon_path], [_create_fallback_image]) *)

(** [sys.platform]: "win32", "darwin", or anything else. *)
Inductive platform : Type := Win32 | Darwin | OtherPlatform.

Definition preferred_formats (p : platform) : list string :=
  match p with
  | Win32 => ["ico"; "png"]
  | Darwin => ["png"; "ico"]
  | OtherPlatform => ["png"; "ico"]
  end.

Definition preferred_sizes (p : platform) : list Z :=
  match p with
  | Win32 => [256; 128; 64; 48; 32; 24; 16]
  | Darwin => [512; 256; 128; 64; 32]
  | OtherPlatform => [256; 128; 64; 48; 32; 24; 16]
  end.

(** The assets directory as the search sees it: [assets_file name] is
    [str(self.assets_dir / name)], [path_exists name] is what
    [(self.assets_dir / name).exists()] answers, or the exception it
    raises. *)
Record Assets : Type := mkAssets {
  assets_file : string -> string;
  path_exists : string -> Res bool
}.

(** One [for] loop of [_get_icon_path] over the file names [names]: the
    first that exists. *)
Fixpoint first_existing (A : Assets) (names : list string) : Res (option string) :=
  match names with
  | [] => Ok None
  | name :: rest =>
      match path_exists A name with
      | Raise e => Raise e
      | Ok true => Ok (Some name)
      | Ok false => first_existing A rest
      end
  end.

(** [f"simkl-mps-{status}-{size}.{fmt}"], size by size and, for each size,
    format by format. *)
Definition status_sized_icons (p : platform) (status : string) : list string :=
  flat_map (fun size =>
              List.map (fun fmt => "simkl-mps-" +:+ status +:+ "-" +:+ str_of_Z size
                                   +:+ "." +:+ fmt)
                (preferred_formats p))
    (preferred_sizes p).

(** [f"simkl-mps-{status}.{fmt}"] *)
Definition status_icons (p : platform) (status : string) : list string :=
  List.map (fun fmt => "simkl-mps-" +:+ status +:+ "." +:+ fmt) (preferred_formats p).

(** [f"simkl-mps-{size}.{fmt}"] *)
Definition generic_sized_icons (p : platform) : list string :=
  flat_map (fun size =>
              List.map (fun fmt => "simkl-mps-" +:+ str_of_Z size +:+ "." +:+ fmt)
                (preferred_formats p))
    (preferred_sizes p).

(** [f"simkl-mps.{fmt}"] *)
Definition generic_icons (p : platform) : list string :=
  List.map (fun fmt => "simkl-mps." +:+ fmt) (preferred_formats p).

(** The four searches in turn, inside the [try]. *)
Definition search_icon (p : platform) (A : Assets) (status : string) : Res (option string) :=
  match first_existing A (status_sized_icons p status) with
  | Raise e => Raise e
  | Ok (Some name) => Ok (Some name)
  | Ok None =>
      match first_existing A (status_icons p status) with
      | Raise e => Raise e
      | Ok (Some name) => Ok (Some name)
      | Ok None =>
          match first_existing A (generic_sized_icons p) with
          | Raise e => Raise e
          | Ok (Some name) => Ok (Some name)
          | Ok None => first_existing A (generic_icons p)
          end
      end
  end.

Definition _get_icon_path (p : platform) (A : Assets) (status : string) : option string :=
  match search_icon p A status with
  | Ok (Some name) => Some (assets_file A name)
  | Ok None => None
  | Raise _ => None
  end.

(** The file names [_get_icon_path] looks for, in the order it looks. *)
Definition icon_candidates (p : platform) (status : string) : list string :=
  status_sized_icons p status ++ status_icons p status
  ++ generic_sized_icons p ++ generic_icons p.

(** An assets directory that holds the listed files. *)
Definition assets_with (files : list string) : Assets :=
  {| assets_file := fun name => "assets/" +:+ name;
     path_exists := fun name => Ok (existsb (String.eqb name) files) |}.

(** The colours of the fallback image: the fill and the ring. *)
Definition fallback_colors (status : string) : (Z * Z * Z) * (Z * Z * Z) :=
  if String.eqb status "running" then ((34, 177, 76), (22, 117, 50))
  else if String.eqb status "paused" then ((255, 127, 39), (204, 102, 31))
  else if String.eqb status "error" then ((237, 28, 36), (189, 22, 29))
  else ((112, 146, 190), (71, 93, 121)).

(** [max(1, size // 20)] *)
Definition ring_thickness (size : Z) : Z := Z.max 1 (size / 20).

Inductive drawing : Type :=
  | Ring (box : (Z * Z) * (Z * Z)) (outline : Z * Z * Z) (width : Z)
  | Letter (text : string) (fill : Z * Z * Z)   (* placed from the font's metrics *)
  | Disc (box : (Z * Z) * (Z * Z)) (fill : Z * Z * Z).

(** [padding = ring_thickness * 2]; the ring's bounding box. *)
Definition ring_box (size : Z) : (Z * Z) * (Z * Z) :=
  let padding := ring_thickness size * 2 in
  ((padding, padding), (size - padding, size - padding)).

(** [inner_padding = size // 4]; the box of the disc drawn when the font
    cannot be loaded. *)
Definition disc_box (size : Z) : (Z * Z) * (Z * Z) :=
  let inner_padding := size / 4 in
  ((inner_padding, inner_padding), (size - inner_padding, size - inner_padding)).

(** What [_create_fallback_image] draws on the transparent square:
    the ring, then the letter "S", or a disc when loading the font raises
    [OSError]. *)
Definition _create_fallback_image (status : string) (size : Z) (font_found : bool)
  : list drawing :=
  let (color, ring_color) := fallback_colors status in
  [ Ring (ring_box size) ring_color (ring_thickness size);
    if font_found then Letter "S" color else Disc (disc_box size) color ].

(** A bounding box that Pillow accepts: neither corner pair is inverted. *)
Definition box_ok (box : (Z * Z) * (Z * Z)) : Prop :=
  fst (fst box) <= fst (snd box) /\ snd (fst box) <= snd (snd box).

(** The first box lies within the second. *)
Definition box_within (inner outer : (Z * Z) * (Z * Z)) : Prop :=
  fst (fst outer) <= fst (fst inner) /\ snd (fst outer) <= snd (fst inner) /\
  fst (snd inner) <= fst (snd outer) /\ snd (snd inner) <= snd (snd outer).


(** * Properties *)

(** ** Python equality and the monad *)

Lemma py_eq_refl (v : pyval) : py_eq v v = true.
Proof.
  destruct v as [|b|n|s]; simpl; try reflexivity.
  - apply Z.eqb_refl.
  - apply Z.eqb_refl.
  - apply String.eqb_refl.
Qed.

Ltac run_monad :=
  unfold show_notification, update_icon, emit, modify, self, raise, ret,
    try_except, bind in *; simpl in *.

(** After [update_status s d l] the status is [s] and the detail is [d],
    whether or not the guard let the assignment through. *)
Lemma update_status_sets (s d : string) (l : pyval) (t : Tray) :
  fst (update_status s d l t) = Ok tt /\
  status (snd (update_status s d l t)) = s /\
  status_details (snd (update_status s d l t)) = d.
Proof.
  unfold update_status. run_monad.
  destruct (String.eqb s (status t)) eqn:Hs;
    destruct (String.eqb d (status_details t)) eqn:Hd;
    destruct (py_ne l (last_scrobbled t)); destruct (truthy l); simpl;
    try apply String.eqb_eq in Hs; try apply String.eqb_eq in Hd; auto.
Qed.

(** [update_status] touches the status fields and the trace only. *)
Lemma update_status_frame (s d : string) (l : pyval) (t : Tray) :
  let t' := snd (update_status s d l t) in
  scrobbler t' = scrobbler t /\
  monitoring_active t' = monitoring_active t /\
  is_first_run t' = is_first_run t /\
  settings t' = settings t.
Proof.
  unfold update_status. run_monad.
  destruct (negb (String.eqb s (status t)) || negb (String.eqb d (status_details t))
            || py_ne l (last_scrobbled t)); destruct (truthy l); simpl; auto.
Qed.

(** When [None] is passed, [update_status] leaves the last-scrobbled
    record alone and adds at most an icon refresh to the trace. *)
Lemma update_status_None (s d : string) (t : Tray) :
  let t' := snd (update_status s d PyNone t) in
  last_scrobbled t' = last_scrobbled t /\
  (trace t' = trace t \/ trace t' = trace t ++ [IconUpdate]).
Proof.
  unfold update_status. run_monad.
  destruct (negb (String.eqb s (status t)) || negb (String.eqb d (status_details t))
            || py_ne PyNone (last_scrobbled t)); simpl; auto.
Qed.

(** ** C10: [update_status] and the last-scrobbled record *)

(** C10. [update_status] overwrites [last_scrobbled] only with a truthy
    argument: a falsy argument ([None]) keeps the previous value, a truthy
    record is never replaced by a falsy one, and a call whose three
    arguments equal the current values returns the state as it was, with no
    icon update. *)
Theorem update_status_keeps_last_scrobbled
    (t : Tray) (new_status details : string) (last : pyval) :
  let t' := snd (update_status new_status details last t) in
  (truthy last = false -> last_scrobbled t' = last_scrobbled t) /\
  (last_scrobbled t' <> last_scrobbled t ->
     truthy last = true /\ last_scrobbled t' = last) /\
  (truthy (last_scrobbled t) = true -> truthy (last_scrobbled t') = true) /\
  (new_status = status t -> details = status_details t ->
     py_eq last (last_scrobbled t) = true ->
     update_status new_status details last t = (Ok tt, t)).
Proof.
  unfold update_status. run_monad.
  destruct (negb (String.eqb new_status (status t))
            || negb (String.eqb details (status_details t))
            || py_ne last (last_scrobbled t)) eqn:Hguard;
    destruct (truthy last) eqn:Htruthy; simpl;
    repeat split; try congruence; auto;
    intros -> -> Heq; unfold py_ne in Hguard;
    rewrite !String.eqb_refl, Heq in Hguard; discriminate.
Qed.

Lemma update_status_keeps_last_scrobbled_witness :
  last_scrobbled (snd (update_status "stopped" "" PyNone
                         (with_last_scrobbled (PyStr "Inception (2010)") running_tray)))
  = PyStr "Inception (2010)"
  /\ update_status "running" "" PyNone running_tray = (Ok tt, running_tray).
Proof.
  split.
  - apply (update_status_keeps_last_scrobbled
             (with_last_scrobbled (PyStr "Inception (2010)") running_tray)
             "stopped" "" PyNone).
    reflexivity.
  - apply (update_status_keeps_last_scrobbled running_tray "running" "" PyNone);
      reflexivity.
Defined.

(** ** C7: stopping is idempotent *)

(** C7. When monitoring is not active, [stop_monitoring] returns [False]
    and the state, trace included, is untouched: no [scrobbler.stop()], no
    status change, no notification.  A stop always leaves monitoring
    inactive, so a second stop adds nothing to the first. *)
Theorem stop_monitoring_idempotent (E E' : Engine) (t : Tray) :
  (monitoring_active t = false -> stop_monitoring E t = (Ok false, t)) /\
  monitoring_active (snd (stop_monitoring E t)) = false /\
  snd (stop_monitoring E' (snd (stop_monitoring E t))) = snd (stop_monitoring E t).
Proof.
  assert (Hidle : forall E0 t0, monitoring_active t0 = false ->
                                stop_monitoring E0 t0 = (Ok false, t0)).
  { intros E0 t0 H. unfold stop_monitoring. run_monad. rewrite H. reflexivity. }
  assert (Hoff : monitoring_active (snd (stop_monitoring E t)) = false).
  { unfold stop_monitoring. run_monad.
    destruct (monitoring_active t) eqn:Hact; [|exact Hact].
    destruct (scrobbler t); simpl;
      match goal with
      | |- context [update_status ?s ?d ?l ?u] =>
          pose proof (update_status_sets s d l u) as (Hr & _ & _);
          pose proof (update_status_frame s d l u) as (_ & Hm & _);
          destruct (update_status s d l u) as [[[]|e] u'] eqn:Hu;
          simpl in *; try discriminate; exact Hm
      end. }
  repeat split.
  - apply Hidle.
  - exact Hoff.
  - rewrite (Hidle E' _ Hoff). reflexivity.
Qed.

Lemma stop_monitoring_idempotent_witness :
  stop_monitoring sample_engine (init false ∅) = (Ok false, init false ∅).
Proof.
  apply (stop_monitoring_idempotent sample_engine sample_engine (init false ∅)).
  reflexivity.
Defined.

(** ** The threshold handlers, case by case *)

Lemma set_running_threshold_frame (v : pyval) (t : Tray) :
  let t' := snd (set_running_threshold v t) in
  fst (set_running_threshold v t) = Ok tt /\
  monitoring_active t' = monitoring_active t /\
  status t' = status t /\
  status_details t' = status_details t /\
  last_scrobbled t' = last_scrobbled t /\
  settings t' = settings t /\
  trace t' = trace t /\
  (is_Some (scrobbler t) <-> is_Some (scrobbler t')).
Proof.
  unfold set_running_threshold. run_monad.
  destruct (scrobbler t) as [s|] eqn:Hs; simpl; [|rewrite Hs; tauto].
  destruct (monitor s) as [m|]; simpl; [|rewrite Hs; tauto].
  destruct (monitor_scrobbler m) as [ms|]; simpl; [|rewrite Hs; tauto].
  destruct (completion_threshold ms); simpl; [|rewrite Hs; tauto].
  repeat split; eauto.
Qed.

Lemma with_trace_same (t : Tray) : with_trace (trace t) t = t.
Proof. destruct t; reflexivity. Qed.

Lemma _apply_threshold_change_cases (E : Engine) (v : pyval) (t : Tray) :
  fst (_apply_threshold_change E v t) = Ok tt /\
  threshold_outcome E v t (snd (_apply_threshold_change E v t)).
Proof.
  unfold _apply_threshold_change, get_setting. run_monad.
  fold (stored_threshold t).
  destruct (is_None v) eqn:Hnone; simpl.
  { destruct v; try discriminate. split; [reflexivity|].
    apply threshold_kept; auto. }
  assert (Hv : v <> PyNone) by (intros ->; discriminate).
  unfold py_ne.
  destruct (py_eq v (stored_threshold t)) eqn:Heq; simpl.
  { split; [reflexivity|]. apply threshold_kept; auto. }
  unfold set_setting. run_monad.
  destruct (set_setting_error E threshold_key v) as [e|] eqn:Herr; simpl.
  { split; [reflexivity|].
    eapply threshold_write_failed; eauto.
    unfold after_calls, with_trace; simpl. rewrite <- !app_assoc. reflexivity. }
  match goal with
  | |- context [set_running_threshold v ?u] =>
      pose proof (set_running_threshold_frame v u) as (Hr & Hm & Hst & Hd & Hl & Hse & Htr & Hsc);
      destruct (set_running_threshold v u) as [[[]|e] u'] eqn:Hu;
      simpl in *; try discriminate
  end.
  split; [reflexivity|].
  apply threshold_written; auto.
  rewrite Htr, <- !app_assoc. reflexivity.
Qed.

(** ** C9: a cancelled or unchanged threshold writes nothing *)

(** C9. Applying [None], or a value equal to the stored threshold, returns
    the state as it was except for one [update_icon()]: no [set_setting]
    call, no "Settings Updated" notification, the running scrobbler
    untouched.  In every branch the run ends with exactly one
    [update_icon()]. *)
Theorem apply_threshold_change_noop (E : Engine) (t : Tray) (new_threshold : pyval) :
  (new_threshold = PyNone \/ py_eq new_threshold (stored_threshold t) = true ->
     _apply_threshold_change E new_threshold t = (Ok tt, after_calls t [IconUpdate])) /\
  (exists evs,
     trace (snd (_apply_threshold_change E new_threshold t))
     = trace t ++ evs ++ [IconUpdate] /\ ~ In IconUpdate evs).
Proof.
  destruct (_apply_threshold_change_cases E new_threshold t) as [Hres Hcase].
  destruct (_apply_threshold_change E new_threshold t) as [r t'] eqn:Hrun.
  simpl in *. subst r. split.
  - intros Hnoop. destruct Hcase as [_ ->|e Hv Hne|Hv Hne]; [reflexivity| |];
      destruct Hnoop as [->|Heq]; congruence.
  - destruct Hcase as [_ ->|e _ _ _ ->|_ _ _ _ Htr].
    + exists []. simpl. split; [reflexivity|tauto].
    + eexists [_; _]. simpl. split; [reflexivity|].
      intros [?|[?|[]]]; discriminate.
    + eexists [_; _]. rewrite Htr. simpl. split; [reflexivity|].
      intros [?|[?|[]]]; discriminate.
Qed.

Lemma apply_threshold_change_noop_witness :
  _apply_threshold_change sample_engine (PyInt 80) running_tray
  = (Ok tt, after_calls running_tray [IconUpdate]).
Proof.
  apply (apply_threshold_change_noop sample_engine running_tray (PyInt 80)).
  right. reflexivity.
Defined.

(** ** C2: the dialog hand-off times out *)

Lemma timed_out_dec (E : Engine) (timeout : nat) :
  {timed_out E timeout} + {exists d, dialog_seconds E = Some d /\ (d <= timeout)%nat}.
Proof.
  unfold timed_out. destruct (dialog_seconds E) as [d|]; [|left; exact I].
  destruct (le_lt_dec d timeout); [right; eauto|left; assumption].
Qed.

Lemma result_queue_get_timeout (E : Engine) (timeout : nat) (current : pyval) (t : Tray) :
  timed_out E timeout ->
  result_queue_get E timeout current t = (Raise (Exn QueueEmpty ""), t).
Proof.
  unfold result_queue_get, timed_out. intros Hto.
  destruct (dialog_seconds E) as [d|]; [|reflexivity].
  destruct (Nat.leb_spec d timeout); [lia|reflexivity].
Qed.

Lemma set_custom_watch_threshold_timeout (E : Engine) (t : Tray) :
  timed_out E 60 ->
  set_custom_watch_threshold E t
  = (Ok 0, after_calls t [Notification "Timeout" "Custom threshold dialog timed out.";
                          IconUpdate]).
Proof.
  intros Hto.
  unfold set_custom_watch_threshold, _process_result, get_setting.
  run_monad. fold (stored_threshold t).
  rewrite (result_queue_get_timeout E 60 (stored_threshold t) t Hto). simpl.
  unfold _apply_threshold_change, get_setting. run_monad.
  unfold after_calls, with_trace; simpl. rewrite <- app_assoc. reflexivity.
Qed.

(** C2. When the 60-second wait on the hand-off queue times out,
    [queue.Empty] is raised and caught: the handler returns normally, shows
    the timeout notification, and applies a [None] threshold change, which
    only refreshes the icon.  The settings store is as before. *)
Theorem custom_threshold_timeout (E : Engine) (t : Tray) :
  timed_out E 60 ->
  result_queue_get E 60 (stored_threshold t) t = (Raise (Exn QueueEmpty ""), t) /\
  set_custom_watch_threshold E t
  = (Ok 0, after_calls t [Notification "Timeout" "Custom threshold dialog timed out.";
                          IconUpdate]) /\
  snd (set_custom_watch_threshold E t)
  = snd (_apply_threshold_change E PyNone
           (snd (show_notification "Timeout" "Custom threshold dialog timed out." t))) /\
  settings (snd (set_custom_watch_threshold E t)) = settings t.
Proof.
  intros Hto.
  pose proof (set_custom_watch_threshold_timeout E t Hto) as Hrun.
  repeat split.
  - apply result_queue_get_timeout. exact Hto.
  - exact Hrun.
  - rewrite Hrun. unfold _apply_threshold_change, get_setting. run_monad.
    unfold after_calls, with_trace; simpl. rewrite <- app_assoc. reflexivity.
  - rewrite Hrun. reflexivity.
Qed.

Lemma custom_threshold_timeout_witness :
  set_custom_watch_threshold
    (with_dialog (fun _ => Ok (PyInt 70)) (Some 61%nat) sample_engine) running_tray
  = (Ok 0, after_calls running_tray
             [Notification "Timeout" "Custom threshold dialog timed out."; IconUpdate]).
Proof.
  apply (custom_threshold_timeout
           (with_dialog (fun _ => Ok (PyInt 70)) (Some 61%nat) sample_engine)
           running_tray).
  unfold timed_out; simpl. lia.
Defined.

(** ** The threshold entries, case by case *)

Lemma _set_preset_threshold_cases (E : Engine) (v : pyval) (t : Tray) :
  let t' := snd (_set_preset_threshold E v t) in
  fst (_set_preset_threshold E v t) = Ok 0 /\
  (t' = t \/ threshold_outcome E v t t').
Proof.
  unfold _set_preset_threshold, get_setting. run_monad.
  destruct (py_ne v (default DEFAULT_THRESHOLD (settings t !! threshold_key))); simpl;
    [|auto].
  destruct (_apply_threshold_change_cases E v t) as [Hres Hcase].
  destruct (_apply_threshold_change E v t) as [r t'] eqn:Hrun.
  simpl in *. subst r. auto.
Qed.

Lemma set_custom_watch_threshold_cases (E : Engine) (t : Tray) :
  let t' := snd (set_custom_watch_threshold E t) in
  fst (set_custom_watch_threshold E t) = Ok 0 /\
  (t' = after_calls t [Notification "Timeout" "Custom threshold dialog timed out.";
                       IconUpdate]
   \/ threshold_outcome E (_ask_in_thread E (stored_threshold t)) t t').
Proof.
  destruct (timed_out_dec E 60) as [Hto|(d & Hd & Hle)].
  - rewrite (set_custom_watch_threshold_timeout E t Hto). simpl. auto.
  - unfold set_custom_watch_threshold, _process_result, get_setting, result_queue_get.
    run_monad. fold (stored_threshold t). rewrite Hd.
    destruct (Nat.leb_spec d 60); [|lia]. simpl.
    destruct (_apply_threshold_change_cases E (_ask_in_thread E (stored_threshold t)) t)
      as [Hres Hcase].
    destruct (_apply_threshold_change E (_ask_in_thread E (stored_threshold t)) t)
      as [r t'] eqn:Hrun.
    simpl in *. subst r. auto.
Qed.

Lemma threshold_outcome_settings (E : Engine) (v : pyval) (t t' : Tray) :
  threshold_outcome E v t t' ->
  settings t' = settings t \/ settings t' = store_after E threshold_key v (settings t).
Proof. intros [_ ->|e _ _ _ ->|_ _ _ Hs]; auto. Qed.

(** ** C1 and C8: the backlog summary *)

Lemma call_process_backlog_target (E : Engine) (t : Tray) (ms : MediaScrobbler) :
  backlog_target t = Some ms ->
  call_process_backlog E t
  = (match scrobbler_process_backlog E ms with
     | Ok r => Ok r
     | Raise e => Raise e
     end, after_calls t [BacklogRun]).
Proof.
  unfold backlog_target, call_process_backlog. run_monad.
  destruct (scrobbler t) as [s|]; [|discriminate].
  destruct (monitor s) as [m|]; [|discriminate].
  intros ->. simpl.
  destruct (scrobbler_process_backlog E ms); reflexivity.
Qed.

Lemma call_process_backlog_no_target (E : Engine) (t : Tray) :
  backlog_target t = None ->
  exists e, call_process_backlog E t = (Raise e, t).
Proof.
  unfold backlog_target, call_process_backlog. run_monad.
  destruct (scrobbler t) as [s|]; [|eauto].
  destruct (monitor s) as [m|]; [|eauto].
  intros ->. eauto.
Qed.

Ltac run_backlog Htarget Hresult :=
  unfold process_backlog, _process, _process_body; run_monad;
  rewrite (call_process_backlog_target _ _ _ Htarget), Hresult; simpl;
  unfold py_gt_0; run_monad.

(** C1. For a dictionary result whose counts are integers, the handler
    shows one notification, chosen three ways: "Processed p of a backlog
    items" when processed > 0; else "No backlog items processed
    successfully. a items will be retried later." when attempted > 0 and
    failed is true; else "No backlog items to process".  A missing key reads
    as 0 (or False). *)
Theorem process_backlog_dict_summary
    (E : Engine) (t : Tray) (ms : MediaScrobbler) (d : gmap string pyval) (p : Z) :
  backlog_target t = Some ms ->
  scrobbler_process_backlog E ms = Ok (BacklogDict d) ->
  let processed := default (PyInt 0) (d !! "processed") in
  let attempted := default (PyInt 0) (d !! "attempted") in
  let failed := default (PyBool false) (d !! "failed") in
  as_int processed = Some p ->
  (0 < p ->
     process_backlog E t
     = (Ok 0, after_calls t
                [BacklogRun;
                 Notification "simkl-mps"
                   ("Processed " +:+ py_str processed +:+ " of " +:+ py_str attempted
                    +:+ " backlog items")])) /\
  (p <= 0 -> forall n, as_int attempted = Some n ->
     (0 < n -> truthy failed = true ->
        process_backlog E t
        = (Ok 0, after_calls t
                   [BacklogRun;
                    Notification "simkl-mps"
                      ("No backlog items processed successfully. " +:+ py_str attempted
                       +:+ " items will be retried later.")])) /\
     (n <= 0 \/ truthy failed = false ->
        process_backlog E t
        = (Ok 0, after_calls t
                   [BacklogRun; Notification "simkl-mps" "No backlog items to process"]))).
Proof.
  intros Htarget Hresult processed attempted failed Hp.
  split.
  - intros Hpos. run_backlog Htarget Hresult.
    fold processed attempted. rewrite Hp. simpl.
    destruct (Z.ltb_spec 0 p); [|lia]. simpl.
    unfold after_calls, with_trace. simpl. rewrite <- app_assoc. reflexivity.
  - intros Hle n Hn. split.
    + intros Hpos Hfailed. run_backlog Htarget Hresult.
      fold processed attempted failed. rewrite Hp. simpl.
      destruct (Z.ltb_spec 0 p); [lia|]. simpl. rewrite Hn. simpl.
      destruct (Z.ltb_spec 0 n); [|lia]. rewrite Hfailed. simpl.
      unfold after_calls, with_trace. simpl. rewrite <- app_assoc. reflexivity.
    + intros Hnone. run_backlog Htarget Hresult.
      fold processed attempted failed. rewrite Hp. simpl.
      destruct (Z.ltb_spec 0 p); [lia|]. simpl. rewrite Hn. simpl.
      assert (Hcond : (0 <? n) && truthy failed = false).
      { destruct Hnone as [Hn0| ->]; [|apply andb_false_r].
        destruct (Z.ltb_spec 0 n); [lia|reflexivity]. }
      rewrite Hcond. simpl.
      unfold after_calls, with_trace. simpl. rewrite <- app_assoc. reflexivity.
Qed.

Lemma process_backlog_dict_summary_witness :
  process_backlog
    (with_backlog (fun _ => Ok (BacklogDict partial_backlog)) sample_engine) running_tray
  = (Ok 0, after_calls running_tray
             [BacklogRun; Notification "simkl-mps" "Processed 2 of 3 backlog items"]).
Proof.
  apply (process_backlog_dict_summary
           (with_backlog (fun _ => Ok (BacklogDict partial_backlog)) sample_engine)
           running_tray {| completion_threshold := Some (PyInt 80) |} partial_backlog 2);
    try reflexivity.
Defined.

(** The other two outcomes, run on concrete dictionaries. *)
Example process_backlog_all_failed :
  trace (snd (process_backlog
                (with_backlog
                   (fun _ => Ok (BacklogDict
                      (<["processed" := PyInt 0]>
                         (<["attempted" := PyInt 4]> (<["failed" := PyBool true]> ∅)))))
                   sample_engine)
                (with_scrobbler (Some (live_scrobbler true)) (init false ∅))))
  = [BacklogRun;
     Notification "simkl-mps"
       "No backlog items processed successfully. 4 items will be retried later."].
Proof. reflexivity. Qed.

Example process_backlog_empty_dict :
  trace (snd (process_backlog
                (with_backlog (fun _ => Ok (BacklogDict ∅)) sample_engine)
                (with_scrobbler (Some (live_scrobbler true)) (init false ∅))))
  = [BacklogRun; Notification "simkl-mps" "No backlog items to process"].
Proof. reflexivity. Qed.

(** A count that is not a number makes the comparison raise; the worker
    catches it and reports a failure. *)
Example process_backlog_count_is_None :
  let E := with_backlog (fun _ => Ok (BacklogDict (<["processed" := PyNone]> ∅)))
             sample_engine in
  fst (process_backlog E running_tray) = Ok 0 /\
  status (snd (process_backlog E running_tray)) = "error" /\
  notifications (trace (snd (process_backlog E running_tray)))
  = notifications (trace running_tray)
    ++ [Notification "simkl-mps Error" "Failed to process backlog"].
Proof. repeat split; reflexivity. Qed.

(** C8. For the legacy integer result n the handler shows "Processed n
    backlog items" when n > 0 and "No backlog items to process" when
    n <= 0; it returns normally and the status is not touched. *)
Theorem process_backlog_legacy_int
    (E : Engine) (t : Tray) (ms : MediaScrobbler) (n : Z) :
  backlog_target t = Some ms ->
  scrobbler_process_backlog E ms = Ok (BacklogValue (PyInt n)) ->
  (0 < n ->
     process_backlog E t
     = (Ok 0, after_calls t
                [BacklogRun;
                 Notification "simkl-mps"
                   ("Processed " +:+ str_of_Z n +:+ " backlog items")])) /\
  (n <= 0 ->
     process_backlog E t
     = (Ok 0, after_calls t
                [BacklogRun; Notification "simkl-mps" "No backlog items to process"])).
Proof.
  intros Htarget Hresult. split; intros Hn; run_backlog Htarget Hresult.
  - destruct (Z.ltb_spec 0 n); [|lia]. simpl.
    unfold after_calls, with_trace. simpl. rewrite <- app_assoc. reflexivity.
  - destruct (Z.ltb_spec 0 n); [lia|]. simpl.
    unfold after_calls, with_trace. simpl. rewrite <- app_assoc. reflexivity.
Qed.

Lemma process_backlog_legacy_int_witness :
  process_backlog
    (with_backlog (fun _ => Ok (BacklogValue (PyInt 7))) sample_engine) running_tray
  = (Ok 0, after_calls running_tray
             [BacklogRun; Notification "simkl-mps" "Processed 7 backlog items"])
  /\ process_backlog sample_engine running_tray
     = (Ok 0, after_calls running_tray
                [BacklogRun; Notification "simkl-mps" "No backlog items to process"]).
Proof.
  split.
  - apply (process_backlog_legacy_int
             (with_backlog (fun _ => Ok (BacklogValue (PyInt 7))) sample_engine)
             running_tray {| completion_threshold := Some (PyInt 80) |} 7);
      [reflexivity | reflexivity | lia].
  - apply (process_backlog_legacy_int sample_engine running_tray
             {| completion_threshold := Some (PyInt 80) |} 0);
      [reflexivity | reflexivity | lia].
Defined.

(** ** Starting: the possible runs *)

Lemma notifications_app (l l' : list event) :
  notifications (l ++ l') = notifications l ++ notifications l'.
Proof. apply List.filter_app. Qed.

Ltac step_update_status :=
  match goal with
  | |- context [update_status ?s ?d PyNone ?u] =>
      let Hr := fresh "Hr" in
      let Hst := fresh "Hst" in
      let Hdt := fresh "Hdt" in
      let Hsc := fresh "Hsc" in
      let Hm := fresh "Hm" in
      let Hfr := fresh "Hfr" in
      let Hse := fresh "Hse" in
      let Hl := fresh "Hl" in
      let Htr := fresh "Htr" in
      pose proof (update_status_sets s d PyNone u) as (Hr & Hst & Hdt);
      pose proof (update_status_frame s d PyNone u) as (Hsc & Hm & Hfr & Hse);
      pose proof (update_status_None s d u) as (Hl & Htr);
      destruct (update_status s d PyNone u) as [[[]|?] ?] eqn:?;
      simpl in *; try discriminate
  end.

Lemma after_calls_nil (t : Tray) : after_calls t [] = t.
Proof. unfold after_calls. rewrite app_nil_r. apply with_trace_same. Qed.

Lemma register_notification_callback_run (t : Tray) :
  exists evs, register_notification_callback t = (Ok tt, after_calls t evs)
              /\ notifications evs = [].
Proof.
  unfold register_notification_callback. run_monad.
  destruct (scrobbler t) as [s|]; [|exists []; rewrite after_calls_nil; auto].
  destruct (monitor s) as [m|]; [|exists []; rewrite after_calls_nil; auto].
  destruct (monitor_scrobbler m); [|exists []; rewrite after_calls_nil; auto].
  exists [SetNotificationCallback]. auto.
Qed.

Lemma check_monitor_running_run (t : Tray) :
  check_monitor_running t
  = (Ok tt, if monitor_stopped t then with_monitoring_active false t else t).
Proof.
  unfold check_monitor_running, monitor_stopped. run_monad.
  destruct (scrobbler t) as [s|]; [|reflexivity].
  destruct (monitor s) as [m|]; [|reflexivity].
  destruct (negb (default false (running m))); reflexivity.
Qed.

Lemma call_start_run (E : Engine) (t : Tray) (s : SimklScrobbler) :
  scrobbler t = Some s ->
  call_start E t
  = (fst (scrobbler_start E s),
     with_scrobbler (Some (snd (scrobbler_start E s))) (after_calls t [ScrobblerStart])).
Proof.
  intros Hs. unfold call_start. run_monad. rewrite Hs. simpl.
  destruct (fst (scrobbler_start E s)); reflexivity.
Qed.

Lemma call_initialize_run (E : Engine) (t : Tray) (s : SimklScrobbler) :
  scrobbler t = Some s ->
  call_initialize E t
  = (Ok (fst (scrobbler_initialize E s)),
     with_scrobbler (Some (snd (scrobbler_initialize E s)))
       (after_calls t [ScrobblerInitialize])).
Proof.
  intros Hs. unfold call_initialize. run_monad. rewrite Hs. reflexivity.
Qed.

Lemma start_scrobbler_cases (E : Engine) (manual : bool) (t : Tray) (s : SimklScrobbler) :
  scrobbler t = Some s ->
  exists r t', start_scrobbler E manual t = (Ok r, t') /\ start_result E manual t r t'.
Proof.
  intros Hs. unfold start_scrobbler.
  destruct (register_notification_callback_run t) as (evs & Hreg & Hevs).
  unfold try_except, bind at 1. rewrite Hreg.
  unfold bind at 1. rewrite (call_start_run E (after_calls t evs) s Hs).
  destruct (scrobbler_start E s) as [[[|]|e] s'] eqn:Hstart; run_monad.
  - step_update_status. rewrite Hfr.
    destruct (is_first_run t || manual) eqn:Hshow; simpl;
      (eexists true, _; split; [reflexivity|]);
      apply start_succeeded; simpl; try congruence;
      rewrite Hshow;
      destruct Htr as [Htr|Htr]; rewrite Htr; simpl;
      rewrite ?notifications_app, ?Hevs; simpl; rewrite ?app_nil_r; reflexivity.
  - step_update_status. eexists false, _. split; [reflexivity|].
    apply start_failed with (detail := "Failed to start")
                            (message := "Failed to start monitoring");
      simpl; try congruence.
    + eapply failed_start. rewrite Hstart. reflexivity.
    + destruct Htr as [Htr|Htr]; rewrite Htr; simpl;
        rewrite ?notifications_app, ?Hevs; simpl; rewrite ?app_nil_r; reflexivity.
  - step_update_status. eexists false, _. split; [reflexivity|].
    apply start_failed with (detail := exn_msg e)
                            (message := "Error starting monitoring: " +:+ exn_msg e);
      simpl; try congruence.
    + eapply failed_exception. rewrite Hstart. reflexivity.
    + destruct Htr as [Htr|Htr]; rewrite Htr; simpl;
        rewrite ?notifications_app, ?Hevs; simpl; rewrite ?app_nil_r; reflexivity.
Qed.

Lemma start_result_transfer (E : Engine) (manual r : bool) (t u t' : Tray) :
  notifications (trace u) = notifications (trace t) ->
  is_first_run u = is_first_run t ->
  settings u = settings t ->
  start_result E manual u r t' -> start_result E manual t r t'.
Proof.
  intros Hn Hf Hs [v Hm Hst Hd Hse Hnot | v detail message Hk Hm Hst Hd Hse Hnot].
  - apply start_succeeded; try congruence. rewrite Hnot, Hn, Hf. reflexivity.
  - apply start_failed with (detail := detail) (message := message); try congruence.
Qed.

Lemma still_active_false_flag (t : Tray) :
  still_active t = false ->
  monitoring_active (if monitor_stopped t then with_monitoring_active false t else t)
  = false.
Proof.
  unfold still_active. destruct (monitor_stopped t); simpl; [reflexivity|].
  rewrite andb_true_r. auto.
Qed.

Lemma start_monitoring_cases (E : Engine) (manual : bool) (t : Tray) :
  exists r t', start_monitoring E manual t = (Ok r, t') /\
    ((still_active t = true /\ r = true /\ t' = t) \/
     (still_active t = false /\ start_result E manual t r t')).
Proof.
  unfold start_monitoring. unfold bind at 1. rewrite check_monitor_running_run.
  unfold bind at 1, self.
  destruct (still_active t) eqn:Hact.
  { unfold still_active in Hact. apply andb_true_iff in Hact as [Hflag Hrun].
    apply negb_true_iff in Hrun. rewrite Hrun, Hflag. simpl.
    exists true, t. split; [reflexivity|]. left. auto. }
  pose proof (still_active_false_flag t Hact) as Hflag.
  set (t1 := if monitor_stopped t then with_monitoring_active false t else t) in *.
  assert (Hframe : scrobbler t1 = scrobbler t /\ trace t1 = trace t /\
                   is_first_run t1 = is_first_run t /\ settings t1 = settings t).
  { subst t1. destruct (monitor_stopped t); simpl; auto. }
  destruct Hframe as (Hsc & Htr & Hfr & Hse).
  rewrite Hflag. simpl.
  destruct (scrobbler t1) as [s|] eqn:Hs1.
  - destruct (start_scrobbler_cases E manual t1 s Hs1) as (r & t' & Hrun & Hres).
    exists r, t'. split; [exact Hrun|]. right. split; [reflexivity|].
    apply (start_result_transfer E manual r t t1 t');
      [congruence | assumption | assumption | exact Hres].
  - unfold bind at 1, modify.
    unfold bind at 1.
    rewrite (call_initialize_run E (with_scrobbler (Some (new_scrobbler E)) t1)
               (new_scrobbler E) eq_refl).
    destruct (scrobbler_initialize E (new_scrobbler E)) as [[|] s'] eqn:Hinit; simpl.
    + match goal with
      | |- context [start_scrobbler E manual ?u] =>
          destruct (start_scrobbler_cases E manual u s' eq_refl)
            as (r & t' & Hrun & Hres);
          exists r, t'; split; [exact Hrun|]; right; split; [reflexivity|];
          apply (start_result_transfer E manual r t u t'); [| | |exact Hres]; simpl;
          rewrite ?notifications_app; simpl; rewrite ?app_nil_r; congruence
      end.
    + run_monad. step_update_status.
      eexists false, _. split; [reflexivity|]. right. split; [reflexivity|].
      apply start_failed with (detail := "Failed to initialize")
          (message := "Failed to initialize. Check your credentials.");
        simpl; try congruence.
      * apply failed_initialize. rewrite Hinit. reflexivity.
      * destruct Htr0 as [Htr0|Htr0]; rewrite Htr0; simpl;
          rewrite ?notifications_app; simpl; rewrite ?app_nil_r; congruence.
Qed.

(** ** Starting: the run, from what the collaborators answer *)

Lemma start_scrobbler_outcome (E : Engine) (manual : bool) (t : Tray) (s : SimklScrobbler) :
  scrobbler t = Some s ->
  exists t',
    start_scrobbler E manual t
    = (Ok (match start_detail (fst (scrobbler_start E s)) with
           | None => true
           | Some _ => false
           end), t') /\
    start_outcome manual t (start_detail (fst (scrobbler_start E s))) t'.
Proof.
  intros Hs. unfold start_scrobbler, start_outcome.
  destruct (register_notification_callback_run t) as (evs & Hreg & Hevs).
  unfold try_except, bind at 1. rewrite Hreg.
  unfold bind at 1. rewrite (call_start_run E (after_calls t evs) s Hs).
  destruct (scrobbler_start E s) as [[[|]|e] s'] eqn:Hstart; run_monad.
  - step_update_status. rewrite Hfr.
    destruct (is_first_run t || manual) eqn:Hshow; simpl;
      (eexists; split; [reflexivity|]); simpl; repeat split; try congruence;
      destruct Htr as [Htr|Htr]; rewrite Htr; simpl;
      rewrite ?notifications_app, ?Hevs; simpl; rewrite ?app_nil_r; reflexivity.
  - step_update_status. eexists. split; [reflexivity|].
    simpl. repeat split; try congruence.
    destruct Htr as [Htr|Htr]; rewrite Htr; simpl;
      rewrite ?notifications_app, ?Hevs; simpl; rewrite ?app_nil_r; reflexivity.
  - step_update_status. eexists. split; [reflexivity|].
    simpl. repeat split; try congruence.
    destruct Htr as [Htr|Htr]; rewrite Htr; simpl;
      rewrite ?notifications_app, ?Hevs; simpl; rewrite ?app_nil_r; reflexivity.
Qed.

Lemma start_outcome_transfer (manual : bool) (t u t' : Tray)
    (failure : option (string * string)) :
  notifications (trace u) = notifications (trace t) ->
  is_first_run u = is_first_run t ->
  settings u = settings t ->
  start_outcome manual u failure t' -> start_outcome manual t failure t'.
Proof.
  unfold start_outcome. intros Hn Hf Hs [Hse Hrest]. split; [congruence|].
  destruct failure as [[detail message]|].
  - destruct Hrest as (Hm & Hst & Hd & Hnot). rewrite <- Hn. auto.
  - destruct Hrest as (Hm & Hst & Hd & Hnot). rewrite <- Hn, <- Hf. auto.
Qed.

Lemma start_monitoring_outcome (E : Engine) (manual : bool) (t : Tray) :
  still_active t = false ->
  exists t',
    start_monitoring E manual t
    = (Ok (match start_failure_of E t with None => true | Some _ => false end), t') /\
    start_outcome manual t (start_failure_of E t) t'.
Proof.
  intros Hact.
  pose proof (still_active_false_flag t Hact) as Hflag.
  unfold start_monitoring. unfold bind at 1. rewrite check_monitor_running_run.
  unfold bind at 1, self.
  set (t1 := if monitor_stopped t then with_monitoring_active false t else t) in *.
  assert (Hframe : scrobbler t1 = scrobbler t /\ trace t1 = trace t /\
                   is_first_run t1 = is_first_run t /\ settings t1 = settings t).
  { subst t1. destruct (monitor_stopped t); simpl; auto. }
  destruct Hframe as (Hsc & Htr & Hfr & Hse).
  rewrite Hflag. simpl. unfold start_failure_of, start_target. rewrite <- Hsc.
  destruct (scrobbler t1) as [s|] eqn:Hs1.
  - destruct (start_scrobbler_outcome E manual t1 s Hs1) as (t' & Hrun & Hout).
    exists t'. split; [exact Hrun|].
    apply (start_outcome_transfer manual t t1 t'); auto. congruence.
  - unfold bind at 1, modify. unfold bind at 1.
    rewrite (call_initialize_run E (with_scrobbler (Some (new_scrobbler E)) t1)
               (new_scrobbler E) eq_refl).
    destruct (scrobbler_initialize E (new_scrobbler E)) as [[|] s'] eqn:Hinit; simpl.
    + match goal with
      | |- context [start_scrobbler E manual ?u] =>
          destruct (start_scrobbler_outcome E manual u s' eq_refl) as (t' & Hrun & Hout);
          exists t'; split; [exact Hrun|];
          apply (start_outcome_transfer manual t u t'); [| | |exact Hout]; simpl;
          rewrite ?notifications_app; simpl; rewrite ?app_nil_r; congruence
      end.
    + run_monad. step_update_status.
      eexists. split; [reflexivity|].
      unfold start_outcome. simpl. repeat split; try congruence.
      destruct Htr0 as [Htr0|Htr0]; rewrite Htr0; simpl;
        rewrite ?notifications_app; simpl; rewrite ?app_nil_r; congruence.
Qed.

(** ** C4: what a start call returns *)

(** C4 as stated fails for a tray that is already monitoring: the call
    returns [True] and does nothing. *)
Lemma start_when_running_returns_true :
  monitoring_active running_tray = true /\
  still_active running_tray = true /\
  start_monitoring sample_engine true running_tray = (Ok true, running_tray).
Proof. repeat split; reflexivity. Qed.

(** C4, amended. Starting while monitoring is already running returns
    [True] and leaves the state, trace included, as it was.  A start call
    returns [False], with monitoring inactive, when there is no scrobbler
    yet and the initialization of the new one fails. *)
Theorem start_monitoring_results (E : Engine) (manual : bool) (t : Tray) :
  (still_active t = true -> start_monitoring E manual t = (Ok true, t)) /\
  (monitoring_active t = false -> scrobbler t = None ->
   fst (scrobbler_initialize E (new_scrobbler E)) = false ->
   fst (start_monitoring E manual t) = Ok false /\
   monitoring_active (snd (start_monitoring E manual t)) = false).
Proof.
  split.
  - intros Hact.
    destruct (start_monitoring_cases E manual t) as (r & t' & Hrun & [(_ & -> & ->)|(Hf & _)]);
      [exact Hrun | congruence].
  - intros Hflag Hnone Hinit.
    destruct (start_monitoring E manual t) as [r t'] eqn:Hrun. revert Hrun.
    unfold start_monitoring. unfold bind at 1. rewrite check_monitor_running_run.
    assert (Hstop : monitor_stopped t = false)
      by (unfold monitor_stopped; rewrite Hnone; reflexivity).
    rewrite Hstop. unfold bind at 1, self. rewrite Hflag, Hnone. simpl.
    unfold bind at 1, modify. unfold bind at 1.
    rewrite (call_initialize_run E (with_scrobbler (Some (new_scrobbler E)) t)
               (new_scrobbler E) eq_refl).
    rewrite Hinit. simpl. run_monad. step_update_status.
    intros [= <- <-]. simpl. auto.
Qed.

Lemma start_monitoring_results_witness :
  start_monitoring sample_engine true running_tray = (Ok true, running_tray)
  /\ fst (start_monitoring (with_initialize (fun s => (false, s)) sample_engine)
            true (init false ∅)) = Ok false.
Proof.
  split.
  - apply (start_monitoring_results sample_engine true running_tray). reflexivity.
  - apply (start_monitoring_results (with_initialize (fun s => (false, s)) sample_engine)
             true (init false ∅)); reflexivity.
Defined.

(** ** C5: the failure paths *)

(** The [try] block of the backlog worker only makes calls; when it raises,
    no notification has been shown yet. *)
Lemma _process_body_run (E : Engine) (t : Tray) :
  exists r evs, _process_body E t = (r, after_calls t evs) /\
                (forall e, r = Raise e -> notifications evs = []).
Proof.
  unfold _process_body. unfold bind at 1.
  destruct (backlog_target t) as [ms|] eqn:Htarget.
  - rewrite (call_process_backlog_target E t ms Htarget).
    destruct (scrobbler_process_backlog E ms) as [[d|v]|e0].
    + unfold py_gt_0.
      destruct (as_int (default (PyInt 0) (d !! "processed"))) as [p|]; run_monad;
        [|eexists _, [BacklogRun]; split; [reflexivity|reflexivity]].
      destruct (0 <? p); simpl;
        [eexists _, [BacklogRun; _]; split;
           [unfold after_calls, with_trace; simpl; rewrite <- app_assoc; reflexivity
           |discriminate]|].
      destruct (as_int (default (PyInt 0) (d !! "attempted"))) as [n|]; simpl;
        [|eexists _, [BacklogRun]; split; [reflexivity|reflexivity]].
      destruct ((0 <? n) && truthy (default (PyBool false) (d !! "failed"))); simpl;
        (eexists _, [BacklogRun; _]; split;
           [unfold after_calls, with_trace; simpl; rewrite <- app_assoc; reflexivity
           |discriminate]).
    + unfold py_gt_0.
      destruct (as_int v) as [n|]; run_monad;
        [|eexists _, [BacklogRun]; split; [reflexivity|reflexivity]].
      destruct (0 <? n); simpl;
        (eexists _, [BacklogRun; _]; split;
           [unfold after_calls, with_trace; simpl; rewrite <- app_assoc; reflexivity
           |discriminate]).
    + eexists _, [BacklogRun]. split; [reflexivity|reflexivity].
  - destruct (call_process_backlog_no_target E t Htarget) as [e0 Hcall].
    rewrite Hcall. eexists _, []. rewrite after_calls_nil. split; reflexivity.
Qed.

Lemma process_backlog_cases (E : Engine) (t : Tray) :
  exists t', process_backlog E t = (Ok 0, t') /\
    monitoring_active t' = monitoring_active t /\
    settings t' = settings t /\
    scrobbler t' = scrobbler t /\
    ((fst (_process_body E t) = Ok tt /\ t' = snd (_process_body E t) /\
      status t' = status t /\ status_details t' = status_details t) \/
     ((exists e, fst (_process_body E t) = Raise e) /\
      status t' = "error" /\ status_details t' = "" /\
      notifications (trace t')
      = notifications (trace t)
        ++ [Notification "simkl-mps Error" "Failed to process backlog"])).
Proof.
  destruct (_process_body_run E t) as (r & evs & Hbody & Hevs).
  unfold process_backlog, _process. unfold bind at 1. unfold bind at 1.
  unfold try_except. rewrite Hbody.
  destruct r as [[]|e]; run_monad.
  - eexists. split; [reflexivity|]. simpl. repeat split; auto.
  - step_update_status.
    eexists. split; [reflexivity|]. simpl. repeat split; try congruence.
    right. repeat split; eauto.
    specialize (Hevs e eq_refl).
    destruct Htr as [Htr|Htr]; rewrite Htr; simpl;
      rewrite ?notifications_app, ?Hevs; simpl; rewrite ?app_nil_r; reflexivity.
Qed.

(** The failing input of C5: a backlog run that raises sets the status to
    "error" with an empty detail. *)
Lemma backlog_failure_has_no_detail :
  let E := with_backlog (fun _ => Raise (Exn OtherException "connection reset"))
             sample_engine in
  fst (_process_body E running_tray) = Raise (Exn OtherException "connection reset") /\
  status (snd (process_backlog E running_tray)) = "error" /\
  status_details (snd (process_backlog E running_tray)) = "".
Proof. repeat split; reflexivity. Qed.

(** C5. The four failure paths, each from its cause.  A start that finds
    monitoring not running and fails to initialize, or whose
    [scrobbler.start()] returns [False] or raises, returns [False], shows
    exactly one notification and sets the status "error" with a detail:
    "Failed to initialize", "Failed to start", the text of the exception.
    A backlog run whose [try] block raises shows exactly one notification
    and sets the status "error" as well, but with the detail empty: line 521
    passes none, where the three sibling paths pass one. *)
Theorem failure_paths_from_causes (E : Engine) (manual : bool) (t : Tray) :
  (still_active t = false -> scrobbler t = None ->
   fst (scrobbler_initialize E (new_scrobbler E)) = false ->
   fst (start_monitoring E manual t) = Ok false /\
   failure_shown t (snd (start_monitoring E manual t))
     "Failed to initialize" "Failed to initialize. Check your credentials.") /\
  (still_active t = false ->
   (scrobbler t = None -> fst (scrobbler_initialize E (new_scrobbler E)) = true) ->
   fst (scrobbler_start E (start_target E t)) = Ok false ->
   fst (start_monitoring E manual t) = Ok false /\
   failure_shown t (snd (start_monitoring E manual t))
     "Failed to start" "Failed to start monitoring") /\
  (forall e,
   still_active t = false ->
   (scrobbler t = None -> fst (scrobbler_initialize E (new_scrobbler E)) = true) ->
   fst (scrobbler_start E (start_target E t)) = Raise e ->
   fst (start_monitoring E manual t) = Ok false /\
   failure_shown t (snd (start_monitoring E manual t))
     (exn_msg e) ("Error starting monitoring: " +:+ exn_msg e)) /\
  (forall e,
   fst (_process_body E t) = Raise e ->
   fst (process_backlog E t) = Ok 0 /\
   failure_shown t (snd (process_backlog E t)) "" "Failed to process backlog").
Proof.
  assert (Hstart : forall detail message,
            still_active t = false ->
            start_failure_of E t = Some (detail, message) ->
            fst (start_monitoring E manual t) = Ok false /\
            failure_shown t (snd (start_monitoring E manual t)) detail message).
  { intros detail message Hact Hfail.
    destruct (start_monitoring_outcome E manual t Hact) as (t' & Hrun & Hout).
    rewrite Hrun. rewrite Hfail in *. simpl.
    destruct Hout as (_ & _ & Hst & Hd & Hnot).
    split; [reflexivity|]. unfold failure_shown. auto. }
  assert (Hlater : forall started,
            (scrobbler t = None -> fst (scrobbler_initialize E (new_scrobbler E)) = true) ->
            fst (scrobbler_start E (start_target E t)) = started ->
            start_failure_of E t = start_detail started).
  { intros started Hinit Hs. unfold start_failure_of, start_target in *.
    destruct (scrobbler t) as [s|]; [congruence|].
    rewrite (Hinit eq_refl). congruence. }
  split; [|split; [|split]].
  - intros Hact Hnone Hinit. apply Hstart; [assumption|].
    unfold start_failure_of. rewrite Hnone, Hinit. reflexivity.
  - intros Hact Hinit Hs. apply Hstart; [assumption|].
    rewrite (Hlater (Ok false)); auto.
  - intros e Hact Hinit Hs. apply Hstart; [assumption|].
    rewrite (Hlater (Raise e)); auto.
  - intros e Hbody.
    destruct (process_backlog_cases E t)
      as (t' & Hrun & _ & _ & _ & [(Hok & _)|(_ & Hst & Hd & Hnot)]); [congruence|].
    rewrite Hrun. unfold failure_shown. simpl. auto.
Qed.

Lemma failure_paths_from_causes_witness :
  status_details
    (snd (process_backlog
            (with_backlog (fun _ => Raise (Exn OtherException "connection reset"))
               sample_engine) running_tray)) = ""
  /\ status_details
       (snd (start_monitoring
               (with_start (fun s => (Raise (Exn OtherException "no player"), s))
                  sample_engine) true (init false ∅))) = "no player".
Proof.
  split.
  - apply (proj2 (proj2 (proj2 (failure_paths_from_causes
                    (with_backlog (fun _ => Raise (Exn OtherException "connection reset"))
                       sample_engine) true running_tray)))
             (Exn OtherException "connection reset")).
    reflexivity.
  - apply (proj1 (proj2 (proj2 (failure_paths_from_causes
                    (with_start (fun s => (Raise (Exn OtherException "no player"), s))
                       sample_engine) true (init false ∅))))
             (Exn OtherException "no player"));
      reflexivity.
Defined.

(** ** C6: status values and transitions *)

Lemma stop_monitoring_cases (E : Engine) (t : Tray) :
  exists r t', stop_monitoring E t = (Ok r, t') /\
    ((monitoring_active t = false /\ r = false /\ t' = t) \/
     (monitoring_active t = true /\ r = true /\
      status t' = "stopped" /\ status_details t' = "" /\
      monitoring_active t' = false /\ settings t' = settings t /\
      notifications (trace t')
      = notifications (trace t) ++ [Notification "simkl-mps" "Media monitoring stopped"])).
Proof.
  unfold stop_monitoring. unfold bind at 1, self.
  destruct (monitoring_active t) eqn:Hact;
    [|exists false, t; split; [reflexivity|left; auto]].
  destruct (scrobbler t) as [s|]; run_monad; step_update_status;
    (eexists true, _; split; [reflexivity|]); right; simpl;
    repeat split; try congruence;
    destruct Htr as [Htr|Htr]; rewrite Htr; simpl;
    rewrite ?notifications_app; simpl; rewrite ?app_nil_r; reflexivity.
Qed.

Lemma threshold_outcome_status (E : Engine) (v : pyval) (t t' : Tray) :
  threshold_outcome E v t t' ->
  status t' = status t /\ monitoring_active t' = monitoring_active t.
Proof. intros [_ ->|e _ _ _ ->|_ _ _ _ _ Hm Hs]; auto. Qed.

Lemma run_then_ret {A : Type} (m : M A) (a : A) (t t' : Tray) :
  m t = (Ok a, t') -> (m ;;; ret tt) t = (Ok tt, t').
Proof. intros H. unfold bind, ret. rewrite H. reflexivity. Qed.

(** ** C3: the threshold that is stored *)

Lemma store_after_other (E : Engine) (key key' : string) (v : pyval)
    (store : gmap string pyval) :
  key' <> key -> store_after E key v store !! key' = store !! key'.
Proof.
  intros Hne. unfold store_after. destruct (store_keeps E key v); [|reflexivity].
  apply lookup_insert_ne. congruence.
Qed.






(** What the tray itself does with the dialog's answer: it hands it to
    [set_setting] unchecked, announces it and passes it to the running
    scrobbler.  Here the dialog answers 150 and the store keeps its 80. *)
Example custom_threshold_passed_unchecked :
  let E := with_dialog (fun _ => Ok (PyInt 150)) (Some 5%nat) sample_engine in
  let t' := snd (run_action E SetCustomThreshold running_tray) in
  trace t' = trace running_tray
             ++ [SetSetting "watch_completion_threshold" (PyInt 150);
                 Notification "Settings Updated" "Watch threshold set to 150%";
                 IconUpdate] /\
  stored_threshold t' = PyInt 80 /\
  running_threshold t' = Some (PyInt 150).
Proof. repeat split; reflexivity. Qed.

(** C6 as stated fails on the transitions: the first start of a fresh
    tray, offered by its menu, fails to initialize and takes the status
    from "stopped" straight to "error". *)
Lemma stopped_to_error_transition :
  let E := with_initialize (fun s => (false, s)) sample_engine in
  let t := init false ∅ in
  let t' := snd (run_action E (StartMonitoring true) t) in
  reachable t /\
  In (StartMonitoring true) (map snd (_build_pystray_menu_items t)) /\
  status t = "stopped" /\ status t' = "error" /\
  ~ listed_transition (status t) (status t').
Proof.
  cbv zeta. split; [apply reach_init|]. split; [simpl; auto|].
  split; [reflexivity|]. split; [reflexivity|].
  intros [[_ H]|[[H _]|[[H _]|[H _]]]]; vm_compute in H; discriminate.
Qed.

(** A later start leaves the "error" status for "running". *)
Example error_to_running_transition :
  let failing := with_initialize (fun s => (false, s)) sample_engine in
  let t := snd (run_action failing (StartMonitoring true) (init false ∅)) in
  status t = "error" /\
  status (snd (run_action sample_engine (StartMonitoring true) t)) = "running".
Proof. split; reflexivity. Qed.

Lemma run_action_status_step (E : Engine) (a : action) (t : Tray) :
  status_step a t (snd (run_action E a t)).
Proof.
  unfold status_step. destruct a as [manual| | |p|]; unfold run_action.
  - destruct (start_monitoring_cases E manual t) as (r & t' & Hrun & Hcase).
    rewrite (run_then_ret _ _ _ _ Hrun). simpl.
    destruct Hcase as [(_ & _ & ->)|(Hact & Hres)]; [auto|].
    right. split; [exact Hact|]. inversion Hres; subst; auto.
  - destruct (stop_monitoring_cases E t) as (r & t' & Hrun & Hcase).
    rewrite (run_then_ret _ _ _ _ Hrun). simpl.
    destruct Hcase as [(_ & _ & ->)|(Hact & _ & Hst & _)]; auto.
  - destruct (process_backlog_cases E t) as (t' & Hrun & _ & _ & _ & Hcase).
    rewrite (run_then_ret _ _ _ _ Hrun). simpl.
    destruct Hcase as [(_ & _ & Hst & _)|(_ & Hst & _)]; auto.
  - pose proof (_set_preset_threshold_cases E (PyInt p) t) as [Hres Hcase].
    destruct (_set_preset_threshold E (PyInt p) t) as [r t'] eqn:Hrun.
    simpl in *. subst r. rewrite (run_then_ret _ _ _ _ Hrun). simpl.
    left. destruct Hcase as [->|Hout]; [reflexivity|].
    apply (threshold_outcome_status _ _ _ _ Hout).
  - pose proof (set_custom_watch_threshold_cases E t) as [Hres Hcase].
    destruct (set_custom_watch_threshold E t) as [r t'] eqn:Hrun.
    simpl in *. subst r. rewrite (run_then_ret _ _ _ _ Hrun). simpl.
    left. destruct Hcase as [->|Hout]; [reflexivity|].
    apply (threshold_outcome_status _ _ _ _ Hout).
Qed.

Lemma reachable_status_ok (t : Tray) : reachable t -> status_ok (status t).
Proof.
  induction 1 as [first_run store|E a t Hreach IH|s t Hreach IH Hsome].
  - left. reflexivity.
  - pose proof (run_action_status_step E a t) as [Hsame|Hstep].
    + rewrite Hsame. exact IH.
    + unfold status_ok. destruct a; intuition.
  - exact IH.
Qed.

(** The "paused" and "Unknown" entries of [get_status_text] are never
    shown. *)
Lemma reachable_status_text (t : Tray) :
  reachable t ->
  status_map (status t) = "Stopped" \/ status_map (status t) = "Running"
  \/ status_map (status t) = "Error".
Proof.
  intros Hreach. destruct (reachable_status_ok t Hreach) as [-> | [-> | ->]]; auto.
Qed.

(** The transitions the specification lists do occur. *)
Example listed_transitions_occur :
  let failing := with_backlog (fun _ => Raise (Exn OtherException "connection reset"))
                   sample_engine in
  let stopped := snd (run_action sample_engine StopMonitoring running_tray) in
  let failed := snd (run_action failing ProcessBacklog running_tray) in
  status (init false ∅) = "stopped" /\ status running_tray = "running" /\
  status stopped = "stopped" /\ status failed = "error" /\
  status (snd (run_action sample_engine StopMonitoring failed)) = "stopped".
Proof. repeat split; reflexivity. Qed.

Lemma run_action_status (E : Engine) (a : action) (t : Tray) :
  status (snd (run_action E a t)) = status_after E a t.
Proof.
  destruct a as [manual| | |p|]; unfold run_action, status_after.
  - destruct (still_active t) eqn:Hact.
    + destruct (start_monitoring_cases E manual t) as (r & t' & Hrun & Hcase).
      rewrite (run_then_ret _ _ _ _ Hrun). simpl.
      destruct Hcase as [(_ & _ & ->)|(Hno & _)]; [reflexivity|congruence].
    + destruct (start_monitoring_outcome E manual t Hact) as (t' & Hrun & Hout).
      rewrite (run_then_ret _ _ _ _ Hrun). simpl.
      destruct Hout as (_ & Hout).
      destruct (start_failure_of E t) as [[detail message]|];
        destruct Hout as (_ & Hst & _); exact Hst.
  - destruct (stop_monitoring_cases E t) as (r & t' & Hrun & Hcase).
    rewrite (run_then_ret _ _ _ _ Hrun). simpl.
    destruct Hcase as [(-> & _ & ->)|(-> & _ & Hst & _)]; [reflexivity|exact Hst].
  - destruct (process_backlog_cases E t) as (t' & Hrun & _ & _ & _ & Hcase).
    rewrite (run_then_ret _ _ _ _ Hrun). simpl.
    destruct Hcase as [(-> & _ & Hst & _)|((e & ->) & Hst & _)]; exact Hst.
  - pose proof (_set_preset_threshold_cases E (PyInt p) t) as [Hres Hcase].
    destruct (_set_preset_threshold E (PyInt p) t) as [r t'] eqn:Hrun.
    simpl in *. subst r. rewrite (run_then_ret _ _ _ _ Hrun). simpl.
    destruct Hcase as [->|Hout]; [reflexivity|].
    apply (threshold_outcome_status _ _ _ _ Hout).
  - pose proof (set_custom_watch_threshold_cases E t) as [Hres Hcase].
    destruct (set_custom_watch_threshold E t) as [r t'] eqn:Hrun.
    simpl in *. subst r. rewrite (run_then_ret _ _ _ _ Hrun). simpl.
    destruct Hcase as [->|Hout]; [reflexivity|].
    apply (threshold_outcome_status _ _ _ _ Hout).
Qed.

(** C6, amended. The status is always one of "stopped", "running",
    "error".  What a handler run makes of it is fixed by the state before
    and by what the collaborators answer: a start that finds monitoring
    running keeps it, any other start sets "running" when it succeeds and
    "error" when initialize() fails or start() returns False or raises,
    whatever the status was; a stop sets "stopped" while monitoring is
    active and keeps the status otherwise; a backlog run sets "error" when
    its try block raises and keeps the status otherwise; the threshold
    entries keep it.  Every change between two of the three values occurs
    on a reachable tray: stopped to running, running to stopped, running to
    error and error to stopped, and also stopped to error and error to
    running. *)
Theorem status_values_and_transitions :
  (forall t, reachable t -> status_ok (status t)) /\
  (forall E a t, status (snd (run_action E a t)) = status_after E a t) /\
  transition_occurs "stopped" "running" /\
  transition_occurs "running" "stopped" /\
  transition_occurs "running" "error" /\
  transition_occurs "error" "stopped" /\
  transition_occurs "stopped" "error" /\
  transition_occurs "error" "running".
Proof.
  pose (start := StartMonitoring true).
  pose (no_init := with_initialize (fun s => (false, s)) sample_engine).
  pose (no_backlog := with_backlog (fun _ => Raise (Exn OtherException "connection reset"))
                        sample_engine).
  pose (fresh := init false ∅).
  pose (started := snd (run_action sample_engine start fresh)).
  assert (Hfresh : reachable fresh) by apply reach_init.
  assert (Hstarted : reachable started) by (apply reach_action; exact Hfresh).
  split; [apply reachable_status_ok|]. split; [apply run_action_status|].
  split; [exists sample_engine, start, fresh; split; [exact Hfresh|split; reflexivity]|].
  split; [exists sample_engine, StopMonitoring, started;
          split; [exact Hstarted|split; reflexivity]|].
  split; [exists no_backlog, ProcessBacklog, started;
          split; [exact Hstarted|split; reflexivity]|].
  split; [exists sample_engine, StopMonitoring, (snd (run_action no_backlog ProcessBacklog started));
          split; [apply reach_action; exact Hstarted|split; reflexivity]|].
  split; [exists no_init, start, fresh; split; [exact Hfresh|split; reflexivity]|].
  exists sample_engine, start, (snd (run_action no_init start fresh)).
  split; [apply reach_action; exact Hfresh|split; reflexivity].
Qed.

Lemma status_values_and_transitions_witness :
  status_ok (status (snd (run_action sample_engine (StartMonitoring true) (init false ∅)))).
Proof.
  apply (proj1 status_values_and_transitions).
  apply (reach_action sample_engine (StartMonitoring true) (init false ∅)).
  apply reach_init.
Defined.


(** * Further properties of the handlers *)

(** ** Calls made by a method *)

Lemma extends_refl (P : event -> Prop) (t : Tray) : extends P t t.
Proof.
  split; [|auto]. exists []. rewrite app_nil_r. split; [reflexivity|constructor].
Qed.

Lemma extends_trans (P : event -> Prop) (t u v : Tray) :
  extends P t u -> extends P u v -> extends P t v.
Proof.
  intros [(e1 & H1 & F1) S1] [(e2 & H2 & F2) S2]. split; [|auto].
  exists (e1 ++ e2). rewrite H2, H1, app_assoc. split; [reflexivity|].
  apply Forall_app; auto.
Qed.

Lemma extends_weaken (P Q : event -> Prop) (t u : Tray) :
  (forall e, P e -> Q e) -> extends P t u -> extends Q t u.
Proof.
  intros HPQ [(evs & H & F) S]. split; [|exact S].
  exists evs. split; [exact H|]. eapply Forall_impl; eauto.
Qed.

Lemma calls_ret {A : Type} (P : event -> Prop) (a : A) : calls_only P (ret a).
Proof. intros t. apply extends_refl. Qed.

Lemma calls_raise {A : Type} (P : event -> Prop) (e : exn) : calls_only P (@raise A e).
Proof. intros t. apply extends_refl. Qed.

Lemma calls_bind {A B : Type} (P : event -> Prop) (m : M A) (k : A -> M B) :
  calls_only P m -> (forall a, calls_only P (k a)) -> calls_only P (bind m k).
Proof.
  intros Hm Hk t. unfold bind. specialize (Hm t).
  destruct (m t) as [[a|e] u]; simpl in *; [|exact Hm].
  eapply extends_trans; [exact Hm|apply Hk].
Qed.

Lemma calls_try_except {A : Type} (P : event -> Prop) (m : M A) (h : exn -> M A) :
  calls_only P m -> (forall e, calls_only P (h e)) -> calls_only P (try_except m h).
Proof.
  intros Hm Hh t. unfold try_except. specialize (Hm t).
  destruct (m t) as [[a|e] u]; simpl in *; [exact Hm|].
  eapply extends_trans; [exact Hm|apply Hh].
Qed.

Lemma calls_self_bind {A : Type} (P : event -> Prop) (k : Tray -> M A) :
  (forall t, extends P t (snd (k t t))) -> calls_only P (bind self k).
Proof. intros Hk t. unfold bind, self. apply Hk. Qed.

Lemma calls_emit (P : event -> Prop) (e : event) : P e -> calls_only P (emit e).
Proof.
  intros He t. unfold emit, modify. simpl. split; [|auto].
  exists [e]. split; [reflexivity|]. constructor; [exact He|constructor].
Qed.

Lemma calls_modify (P : event -> Prop) (f : Tray -> Tray) :
  (forall t, trace (f t) = trace t) ->
  (forall t, is_Some (scrobbler t) -> is_Some (scrobbler (f t))) ->
  calls_only P (modify f).
Proof.
  intros Htr Hsc t. unfold modify. simpl. split; [|apply Hsc].
  exists []. rewrite app_nil_r. split; [apply Htr|constructor].
Qed.

Lemma calls_weaken {A : Type} (P Q : event -> Prop) (m : M A) :
  (forall e, P e -> Q e) -> calls_only P m -> calls_only Q m.
Proof. intros HPQ Hm t. eapply extends_weaken; eauto. Qed.

Ltac calls_step :=
  first
    [ apply calls_ret
    | apply calls_raise
    | apply calls_emit; simpl; auto
    | apply calls_modify; [reflexivity | simpl; intros; eauto]
    | apply calls_try_except; [|intros ?]
    | apply calls_bind; [|intros ?] ].

Ltac calls_auto := repeat calls_step.

Lemma calls_update_status (s d : string) (l : pyval) :
  calls_only routine (update_status s d l).
Proof.
  unfold update_status. apply calls_self_bind. intros t.
  destruct (negb (String.eqb s (status t)) || negb (String.eqb d (status_details t))
            || py_ne l (last_scrobbled t)); [|apply extends_refl].
  generalize t. change (calls_only routine
    (modify (with_status s) ;;; modify (with_status_details d) ;;;
     (if truthy l then modify (with_last_scrobbled l) else ret tt) ;;; update_icon)).
  unfold update_icon, show_notification. destruct (truthy l); calls_auto.
Qed.

Lemma calls_stop_monitoring (E : Engine) : calls_only routine (stop_monitoring E).
Proof.
  unfold stop_monitoring. apply calls_self_bind. intros t.
  destruct (monitoring_active t); [|apply extends_refl].
  generalize t. apply calls_bind; [|intros _].
  - apply calls_self_bind. intros u. destruct (scrobbler u); [|apply extends_refl].
    generalize u. calls_auto.
  - apply calls_bind; [calls_auto|intros _].
    apply calls_bind; [apply calls_update_status|intros _].
    unfold show_notification. calls_auto.
Qed.

Lemma calls_register_notification_callback :
  calls_only routine register_notification_callback.
Proof.
  unfold register_notification_callback. apply calls_self_bind. intros t.
  destruct (scrobbler t) as [s|]; [|apply extends_refl].
  destruct (monitor s) as [m|]; [|apply extends_refl].
  destruct (monitor_scrobbler m); [|apply extends_refl].
  generalize t. calls_auto.
Qed.

Lemma calls_call_start (E : Engine) : calls_only routine (call_start E).
Proof.
  unfold call_start. apply calls_self_bind. intros t.
  destruct (scrobbler t) as [s|]; [|apply extends_refl].
  generalize t. apply calls_bind; [calls_auto|intros _].
  apply calls_bind; [calls_auto|intros _].
  destruct (fst (scrobbler_start E s)); calls_auto.
Qed.

Lemma calls_start_scrobbler (E : Engine) (manual : bool) :
  calls_only routine (start_scrobbler E manual).
Proof.
  unfold start_scrobbler.
  apply calls_bind; [apply calls_register_notification_callback|intros _].
  apply calls_try_except; [|intros e].
  - apply calls_bind; [apply calls_call_start|intros started].
    destruct started.
    + apply calls_bind; [calls_auto|intros _].
      apply calls_bind; [apply calls_update_status|intros _].
      apply calls_self_bind. intros t.
      unfold show_notification.
      destruct (is_first_run t || manual); generalize t; calls_auto.
    + apply calls_bind; [calls_auto|intros _].
      apply calls_bind; [apply calls_update_status|intros _].
      unfold show_notification. calls_auto.
  - apply calls_bind; [calls_auto|intros _].
    apply calls_bind; [apply calls_update_status|intros _].
    unfold show_notification. calls_auto.
Qed.

Lemma calls_call_process_backlog (E : Engine) : calls_only routine (call_process_backlog E).
Proof.
  unfold call_process_backlog. apply calls_self_bind. intros t.
  destruct (scrobbler t) as [s|]; [|apply extends_refl].
  destruct (monitor s) as [m|]; [|apply extends_refl].
  destruct (monitor_scrobbler m) as [ms|]; [|apply extends_refl].
  generalize t. apply calls_bind; [calls_auto|intros _].
  destruct (scrobbler_process_backlog E ms); calls_auto.
Qed.

Lemma calls_py_gt_0 (v : pyval) : calls_only routine (py_gt_0 v).
Proof. unfold py_gt_0. destruct (as_int v); calls_auto. Qed.

Lemma calls_process_backlog (E : Engine) : calls_only routine (process_backlog E).
Proof.
  unfold process_backlog, _process.
  apply calls_bind; [|intros _; calls_auto].
  apply calls_bind; [|intros _; calls_auto].
  apply calls_try_except; [|intros e].
  - unfold _process_body.
    apply calls_bind; [apply calls_call_process_backlog|intros [d|v]].
    + apply calls_bind; [apply calls_py_gt_0|intros [|]].
      * unfold show_notification. calls_auto.
      * apply calls_bind; [apply calls_py_gt_0|intros b].
        unfold show_notification.
        destruct (b && truthy (default (PyBool false) (d !! "failed"))); calls_auto.
    + apply calls_bind; [apply calls_py_gt_0|intros [|]];
        unfold show_notification; calls_auto.
  - apply calls_bind; [apply calls_update_status|intros _].
    unfold show_notification. calls_auto.
Qed.

Lemma routine_threshold_write (e : event) : routine e -> threshold_write e.
Proof. destruct e; simpl; tauto. Qed.

Lemma routine_not_initialize (evs : list event) :
  Forall routine evs -> initialize_calls evs = 0%nat.
Proof.
  unfold initialize_calls. induction 1 as [|e evs He _ IH]; [reflexivity|].
  simpl. destruct e; simpl in *; try exact IH; contradiction.
Qed.

Lemma calls_set_running_threshold (P : event -> Prop) (v : pyval) :
  calls_only P (set_running_threshold v).
Proof.
  unfold set_running_threshold. apply calls_self_bind. intros t.
  destruct (scrobbler t) as [s|]; [|apply extends_refl].
  destruct (monitor s) as [m|]; [|apply extends_refl].
  destruct (monitor_scrobbler m) as [ms|]; [|apply extends_refl].
  destruct (completion_threshold ms); [|apply extends_refl].
  generalize t. calls_auto.
Qed.

Lemma routine_threshold_call (e : event) : routine e -> threshold_call e.
Proof. destruct e; simpl; unfold threshold_call; simpl; tauto. Qed.

Lemma calls__apply_threshold_change (E : Engine) (v : pyval) :
  calls_only threshold_call (_apply_threshold_change E v).
Proof.
  unfold _apply_threshold_change, get_setting.
  apply calls_bind; [apply calls_self_bind; intros t; apply extends_refl|intros current].
  destruct (is_None v) eqn:Hnone; simpl.
  { unfold update_icon. apply calls_emit. split; simpl; auto. }
  assert (Hv : v <> PyNone) by (intros ->; discriminate).
  destruct (py_ne v current); simpl;
    [|unfold update_icon; apply calls_emit; split; simpl; auto].
  apply calls_try_except; [|intros e].
  - apply calls_bind; [|intros _].
    + unfold set_setting. apply calls_bind; [|intros _].
      * apply calls_emit. split; simpl; auto.
      * destruct (set_setting_error E threshold_key v); calls_auto.
    + apply calls_bind; [unfold show_notification; apply calls_emit; split; simpl; auto|intros _].
      apply calls_bind; [apply calls_set_running_threshold|intros _].
      unfold update_icon. apply calls_emit. split; simpl; auto.
  - apply calls_bind; [unfold show_notification; apply calls_emit; split; simpl; auto|intros _].
    unfold update_icon. apply calls_emit. split; simpl; auto.
Qed.

Lemma calls__set_preset_threshold (E : Engine) (v : pyval) :
  calls_only threshold_call (_set_preset_threshold E v).
Proof.
  unfold _set_preset_threshold, get_setting.
  apply calls_bind; [apply calls_self_bind; intros t; apply extends_refl|intros current].
  apply calls_bind; [|intros _; calls_auto].
  destruct (py_ne v current); [apply calls__apply_threshold_change|calls_auto].
Qed.

Lemma calls_set_custom_watch_threshold (E : Engine) :
  calls_only threshold_call (set_custom_watch_threshold E).
Proof.
  unfold set_custom_watch_threshold, get_setting.
  apply calls_bind; [apply calls_self_bind; intros t; apply extends_refl|intros current].
  apply calls_bind; [|intros _; calls_auto].
  unfold _process_result. apply calls_try_except; [|intros e].
  - apply calls_bind; [|intros v; apply calls__apply_threshold_change].
    unfold result_queue_get. destruct (dialog_seconds E) as [d|]; [|calls_auto].
    destruct (d <=? 60)%nat; calls_auto.
  - destruct (is_queue_Empty e); [|apply calls__apply_threshold_change].
    apply calls_bind; [|intros _; apply calls__apply_threshold_change].
    unfold show_notification. apply calls_emit. split; simpl; auto.
Qed.

(** The calls of one [start_monitoring]: routine ones, preceded by one
    [initialize()] exactly when monitoring is not running and there is no
    scrobbler yet. *)
Lemma start_monitoring_calls (E : Engine) (manual : bool) (t : Tray) :
  let t' := snd (start_monitoring E manual t) in
  exists evs, trace t' = trace t ++ evs /\
    (((is_Some (scrobbler t) \/ still_active t = true) /\ Forall routine evs /\
      (is_Some (scrobbler t) -> is_Some (scrobbler t')))
     \/
     (scrobbler t = None /\ still_active t = false /\ is_Some (scrobbler t') /\
      exists evs', evs = ScrobblerInitialize :: evs' /\ Forall routine evs')).
Proof.
  destruct (still_active t) eqn:Hact.
  { destruct (start_monitoring_cases E manual t)
      as (r & t' & Hrun & [(_ & _ & ->)|(Hf & _)]); [|congruence].
    rewrite Hrun. simpl. exists []. rewrite app_nil_r. split; [reflexivity|].
    left. repeat split; auto. }
  pose proof (still_active_false_flag t Hact) as Hflag.
  destruct (start_monitoring E manual t) as [r t'] eqn:Hrun. simpl. revert Hrun.
  unfold start_monitoring. unfold bind at 1. rewrite check_monitor_running_run.
  unfold bind at 1, self.
  set (t1 := if monitor_stopped t then with_monitoring_active false t else t) in *.
  assert (Hframe : scrobbler t1 = scrobbler t /\ trace t1 = trace t).
  { subst t1. destruct (monitor_stopped t); simpl; auto. }
  destruct Hframe as (Hsc & Htr).
  rewrite Hflag. simpl.
  destruct (scrobbler t1) as [s|] eqn:Hs1.
  - intros Hrun.
    destruct (calls_start_scrobbler E manual t1) as [(evs & Hevs & Hrout) Hkeep].
    rewrite Hrun in *. simpl in *.
    exists evs. rewrite Hevs, Htr. split; [reflexivity|].
    left. rewrite <- Hsc. repeat split; eauto.
  - unfold bind at 1, modify. unfold bind at 1.
    rewrite (call_initialize_run E (with_scrobbler (Some (new_scrobbler E)) t1)
               (new_scrobbler E) eq_refl).
    set (u := with_scrobbler (Some (snd (scrobbler_initialize E (new_scrobbler E))))
                (after_calls (with_scrobbler (Some (new_scrobbler E)) t1)
                   [ScrobblerInitialize])).
    assert (Hu : trace u = trace t ++ [ScrobblerInitialize])
      by (subst u; simpl; rewrite Htr; reflexivity).
    assert (Hrest : forall m : M bool, calls_only routine m -> m u = (r, t') ->
              exists evs, trace t' = trace t ++ evs /\
                ((is_Some (scrobbler t) \/ false = true) /\ Forall routine evs /\
                 (is_Some (scrobbler t) -> is_Some (scrobbler t'))
                 \/
                 (scrobbler t = None /\ false = false /\ is_Some (scrobbler t') /\
                  exists evs', evs = ScrobblerInitialize :: evs' /\ Forall routine evs'))).
    { intros m Hm Hrun. destruct (Hm u) as [(evs & Hevs & Hrout) Hkeep].
      rewrite Hrun in *. simpl in *.
      exists (ScrobblerInitialize :: evs). rewrite Hevs, Hu, <- app_assoc.
      split; [reflexivity|]. right.
      split; [congruence|]. split; [reflexivity|].
      split; [apply Hkeep; subst u; simpl; eauto | eauto]. }
    simpl. destruct (fst (scrobbler_initialize E (new_scrobbler E))); simpl.
    + apply Hrest. apply calls_start_scrobbler.
    + apply Hrest.
      apply calls_bind; [apply calls_update_status|intros _].
      unfold show_notification. calls_auto.
Qed.

Lemma initialize_calls_app (l l' : list event) :
  initialize_calls (l ++ l') = (initialize_calls l + initialize_calls l')%nat.
Proof. unfold initialize_calls. rewrite List.filter_app, length_app. reflexivity. Qed.

Lemma threshold_call_not_initialize (evs : list event) :
  Forall threshold_call evs -> initialize_calls evs = 0%nat.
Proof.
  unfold initialize_calls. induction 1 as [|e evs [_ He] _ IH]; [reflexivity|].
  simpl. rewrite He. exact IH.
Qed.

Lemma calls_run_action (E : Engine) (a : action) :
  (forall manual, a <> StartMonitoring manual) ->
  calls_only threshold_call (run_action E a).
Proof.
  intros Hstart. destruct a as [manual| | |p|]; unfold run_action.
  - exfalso. eapply Hstart. reflexivity.
  - apply calls_bind; [|intros _; calls_auto].
    eapply calls_weaken; [apply routine_threshold_call|apply calls_stop_monitoring].
  - apply calls_bind; [|intros _; calls_auto].
    eapply calls_weaken; [apply routine_threshold_call|apply calls_process_backlog].
  - apply calls_bind; [|intros _; calls_auto]. apply calls__set_preset_threshold.
  - apply calls_bind; [|intros _; calls_auto]. apply calls_set_custom_watch_threshold.
Qed.

Lemma run_action_start (E : Engine) (manual : bool) (t : Tray) :
  snd (run_action E (StartMonitoring manual) t) = snd (start_monitoring E manual t).
Proof.
  destruct (start_monitoring_cases E manual t) as (r & t' & Hrun & _).
  unfold run_action. rewrite (run_then_ret _ _ _ _ Hrun), Hrun. reflexivity.
Qed.

(** What one handler run adds to the trace. *)
Lemma run_action_calls (E : Engine) (a : action) (t : Tray) :
  let t' := snd (run_action E a t) in
  exists evs, trace t' = trace t ++ evs /\
    Forall threshold_write evs /\
    (is_Some (scrobbler t) -> is_Some (scrobbler t') /\ initialize_calls evs = 0%nat) /\
    (initialize_calls evs = 0%nat \/
     (initialize_calls evs = 1%nat /\ scrobbler t = None /\ is_Some (scrobbler t'))).
Proof.
  destruct a as [manual| | |p|];
    [|pose proof (calls_run_action E StopMonitoring ltac:(discriminate) t) as Hc
     |pose proof (calls_run_action E ProcessBacklog ltac:(discriminate) t) as Hc
     |pose proof (calls_run_action E (SetPresetThreshold p) ltac:(discriminate) t) as Hc
     |pose proof (calls_run_action E SetCustomThreshold ltac:(discriminate) t) as Hc].
  - cbv zeta. rewrite run_action_start.
    destruct (start_monitoring_calls E manual t)
      as (evs & Htr & [(_ & Hrout & Hkeep)|(Hnone & _ & Hsome & evs' & -> & Hrout)]).
    + exists evs. split; [exact Htr|]. split.
      { eapply List.Forall_impl; [apply routine_threshold_write|exact Hrout]. }
      rewrite (routine_not_initialize evs Hrout). auto.
    + exists (ScrobblerInitialize :: evs'). split; [exact Htr|]. split.
      { constructor; [exact I|].
        eapply List.Forall_impl; [apply routine_threshold_write|exact Hrout]. }
      assert (Hone : initialize_calls (ScrobblerInitialize :: evs') = 1%nat).
      { change (S (initialize_calls evs') = 1%nat).
        rewrite (routine_not_initialize evs' Hrout). reflexivity. }
      split; [|right; auto].
      intros Hsome'. rewrite Hnone in Hsome'. destruct Hsome' as [x Hx]. discriminate.
  - destruct Hc as [(evs & Htr & Hcalls) Hkeep].
    exists evs. split; [exact Htr|]. split.
    { eapply List.Forall_impl; [|exact Hcalls]. intros e [He _]. exact He. }
    rewrite (threshold_call_not_initialize evs Hcalls). auto.
  - destruct Hc as [(evs & Htr & Hcalls) Hkeep].
    exists evs. split; [exact Htr|]. split.
    { eapply List.Forall_impl; [|exact Hcalls]. intros e [He _]. exact He. }
    rewrite (threshold_call_not_initialize evs Hcalls). auto.
  - destruct Hc as [(evs & Htr & Hcalls) Hkeep].
    exists evs. split; [exact Htr|]. split.
    { eapply List.Forall_impl; [|exact Hcalls]. intros e [He _]. exact He. }
    rewrite (threshold_call_not_initialize evs Hcalls). auto.
  - destruct Hc as [(evs & Htr & Hcalls) Hkeep].
    exists evs. split; [exact Htr|]. split.
    { eapply List.Forall_impl; [|exact Hcalls]. intros e [He _]. exact He. }
    rewrite (threshold_call_not_initialize evs Hcalls). auto.
Qed.

(** ** The scrobbler is created and initialized once *)

(** X1. Over the whole life of the tray, [scrobbler.initialize()] is
    called at most once, and not at all while there is no scrobbler object;
    a scrobbler, once created, is never discarded by a handler.  So after a
    failed initialization a later start does not initialize again. *)
Theorem initialize_at_most_once (t : Tray) :
  reachable t ->
  (initialize_calls (trace t) <= 1)%nat /\
  (scrobbler t = None -> initialize_calls (trace t) = 0%nat) /\
  (forall E a, is_Some (scrobbler t) -> is_Some (scrobbler (snd (run_action E a t)))).
Proof.
  intros Hreach.
  assert (Hinv : (initialize_calls (trace t) <= 1)%nat /\
                 (scrobbler t = None -> initialize_calls (trace t) = 0%nat)).
  { induction Hreach as [first_run store|E a t Hreach [IH1 IH2]|s t Hreach [IH1 IH2] Hsome].
    - split; [unfold initialize_calls; simpl; lia|reflexivity].
    - destruct (run_action_calls E a t) as (evs & Htr & _ & Hkeep & Hcount).
      rewrite Htr, initialize_calls_app.
      destruct (scrobbler t) as [s|] eqn:Hs.
      + destruct (Hkeep ltac:(eauto)) as [[s' Hs'] Hzero].
        rewrite Hzero, Hs'. split; [lia|discriminate].
      + rewrite (IH2 eq_refl).
        destruct Hcount as [Hzero|(Hone & _ & [s' Hs'])].
        * rewrite Hzero. split; [lia|reflexivity].
        * rewrite Hone, Hs'. split; [lia|discriminate].
    - simpl. split; [exact IH1|discriminate]. }
  destruct Hinv as [H1 H2]. repeat split; auto.
  intros E a Hsome.
  destruct (run_action_calls E a t) as (evs & _ & _ & Hkeep & _).
  apply Hkeep. exact Hsome.
Qed.

Lemma initialize_at_most_once_witness :
  (initialize_calls
     (trace (snd (run_action sample_engine (StartMonitoring true)
                    (snd (run_action (with_initialize (fun s => (false, s)) sample_engine)
                            (StartMonitoring true) (init false ∅)))))) <= 1)%nat.
Proof.
  apply (initialize_at_most_once
           (snd (run_action sample_engine (StartMonitoring true)
                   (snd (run_action (with_initialize (fun s => (false, s)) sample_engine)
                           (StartMonitoring true) (init false ∅)))))).
  apply reach_action. apply reach_action. apply reach_init.
Defined.

(** The second start of that run goes straight to [scrobbler.start()]. *)
Example retry_after_failed_initialize :
  let failing := with_initialize (fun s => (false, s)) sample_engine in
  let t := snd (run_action failing (StartMonitoring true) (init false ∅)) in
  trace (snd (run_action failing (StartMonitoring true) t))
  = trace t ++ [SetNotificationCallback; ScrobblerStart; IconUpdate;
                Notification "simkl-mps" "Media monitoring started"].
Proof. reflexivity. Qed.

(** ** What is written to the settings store *)

(** X2. Every [set_setting] call a handler ever makes writes the key
    "watch_completion_threshold", and never the value [None]. *)
Theorem only_thresholds_are_written (t : Tray) :
  reachable t -> Forall threshold_write (trace t).
Proof.
  induction 1 as [first_run store|E a t Hreach IH|s t Hreach IH Hsome].
  - constructor.
  - destruct (run_action_calls E a t) as (evs & Htr & Hw & _).
    rewrite Htr. apply Forall_app. auto.
  - exact IH.
Qed.

Lemma only_thresholds_are_written_witness :
  Forall threshold_write
    (trace (snd (run_action (with_dialog (fun _ => Ok (PyInt 70)) (Some 5%nat) sample_engine)
                   SetCustomThreshold (init false ∅)))).
Proof.
  apply (only_thresholds_are_written
           (snd (run_action (with_dialog (fun _ => Ok (PyInt 70)) (Some 5%nat) sample_engine)
                   SetCustomThreshold (init false ∅)))).
  apply reach_action. apply reach_init.
Defined.

(** ** The monitoring flag *)

(** X3. Whenever [start_monitoring] returns, what it returns is the value
    of [monitoring_active] it leaves behind: [True] with the status
    "running" (or with nothing changed, when monitoring was already
    running), [False] with the status "error". *)
Theorem start_monitoring_returns_flag (E : Engine) (manual : bool) (t : Tray)
    (r : bool) (t' : Tray) :
  start_monitoring E manual t = (Ok r, t') ->
  monitoring_active t' = r /\
  (r = true -> t' = t \/ status t' = "running") /\
  (r = false -> status t' = "error").
Proof.
  intros Hreturns.
  destruct (start_monitoring_cases E manual t) as (r0 & t0 & Hrun & Hcase).
  rewrite Hrun in Hreturns. injection Hreturns as -> ->.
  destruct Hcase as [(Hact & -> & ->)|(_ & Hres)].
  - unfold still_active in Hact. apply andb_true_iff in Hact as [Hflag _].
    repeat split; auto. discriminate.
  - inversion Hres; subst; repeat split; auto; discriminate.
Qed.

Lemma start_monitoring_returns_flag_witness :
  monitoring_active
    (snd (start_monitoring
            (with_start (fun s => (Ok false, s)) sample_engine) true (init false ∅)))
  = false.
Proof.
  apply (start_monitoring_returns_flag
           (with_start (fun s => (Ok false, s)) sample_engine) true (init false ∅) false).
  reflexivity.
Defined.

Lemma run_action_agrees (E : Engine) (a : action) (t : Tray) :
  status_agrees t -> status_agrees (snd (run_action E a t)).
Proof.
  intros [Hrun Hstop]. destruct a as [manual| | |p|].
  - rewrite run_action_start.
    destruct (start_monitoring_cases E manual t)
      as (r & t' & Hr & [(_ & _ & ->)|(_ & Hres)]); rewrite Hr; simpl.
    + split; assumption.
    + inversion Hres as [u Hm Hst|u detail message Hk Hm Hst]; subst;
        split; rewrite Hst; intros; try discriminate; assumption.
  - destruct (stop_monitoring_cases E t) as (r & t' & Hr & Hcase).
    unfold run_action. rewrite (run_then_ret _ _ _ _ Hr). simpl.
    destruct Hcase as [(_ & _ & ->)|(_ & _ & Hst & _ & Hm & _)].
    + split; assumption.
    + split; rewrite Hst; intros; try discriminate; assumption.
  - destruct (process_backlog_cases E t) as (t' & Hr & Hm & _ & _ & Hcase).
    unfold run_action. rewrite (run_then_ret _ _ _ _ Hr). simpl.
    destruct Hcase as [(_ & _ & Hst & _)|(_ & Hst & _)].
    + split; rewrite Hst, Hm; assumption.
    + split; rewrite Hst; intros; discriminate.
  - pose proof (_set_preset_threshold_cases E (PyInt p) t) as [Hres Hcase].
    destruct (_set_preset_threshold E (PyInt p) t) as [r t'] eqn:Hr.
    simpl in *. subst r. unfold run_action. rewrite (run_then_ret _ _ _ _ Hr). simpl.
    destruct Hcase as [->|Hout]; [split; assumption|].
    destruct (threshold_outcome_status _ _ _ _ Hout) as [Hst Hm].
    split; rewrite Hst, Hm; assumption.
  - pose proof (set_custom_watch_threshold_cases E t) as [Hres Hcase].
    destruct (set_custom_watch_threshold E t) as [r t'] eqn:Hr.
    simpl in *. subst r. unfold run_action. rewrite (run_then_ret _ _ _ _ Hr). simpl.
    destruct Hcase as [->|Hout]; [split; assumption|].
    destruct (threshold_outcome_status _ _ _ _ Hout) as [Hst Hm].
    split; rewrite Hst, Hm; assumption.
Qed.

Lemma reachable_agrees (t : Tray) : reachable t -> status_agrees t.
Proof.
  induction 1 as [first_run store|E a t Hreach IH|s t Hreach IH Hsome].
  - split; simpl; [discriminate|reflexivity].
  - apply run_action_agrees. exact IH.
  - exact IH.
Qed.

(** X4. In every state the tray can reach, the status "running" implies
    that [monitoring_active] is set and the status "stopped" that it is
    not.  (The status "error" goes with either.) *)
Theorem status_agrees_with_flag (t : Tray) :
  reachable t ->
  (status t = "running" -> monitoring_active t = true) /\
  (status t = "stopped" -> monitoring_active t = false).
Proof. apply reachable_agrees. Qed.

Lemma status_agrees_with_flag_witness :
  monitoring_active
    (snd (run_action sample_engine (StartMonitoring true) (init false ∅))) = true.
Proof.
  apply (status_agrees_with_flag
           (snd (run_action sample_engine (StartMonitoring true) (init false ∅)))).
  - apply reach_action. apply reach_init.
  - reflexivity.
Defined.

(** The status "error" with monitoring still active: a backlog failure
    while running. *)
Example error_while_monitoring :
  let failing := with_backlog (fun _ => Raise (Exn OtherException "connection reset"))
                   sample_engine in
  let t := snd (run_action failing ProcessBacklog running_tray) in
  status t = "error" /\ monitoring_active t = true.
Proof. split; reflexivity. Qed.

(** X5. A stop after a start that returned [True] takes effect: it returns
    [True], calls for exactly one more notification, "Media monitoring
    stopped", and leaves the status "stopped" with monitoring inactive. *)
Theorem stop_after_start (E E' : Engine) (manual : bool) (t : Tray) :
  fst (start_monitoring E manual t) = Ok true ->
  let t1 := snd (start_monitoring E manual t) in
  let t2 := snd (stop_monitoring E' t1) in
  fst (stop_monitoring E' t1) = Ok true /\
  status t2 = "stopped" /\ status_details t2 = "" /\
  monitoring_active t2 = false /\
  notifications (trace t2)
  = notifications (trace t1) ++ [Notification "simkl-mps" "Media monitoring stopped"].
Proof.
  intros Hstart. cbv zeta.
  destruct (start_monitoring_cases E manual t) as (r & t1 & Hrun & Hcase).
  rewrite Hrun in *. simpl in *. injection Hstart as ->.
  assert (Hflag : monitoring_active t1 = true).
  { destruct Hcase as [(Hact & _ & ->)|(_ & Hres)].
    - unfold still_active in Hact. apply andb_true_iff in Hact as [Hflag _]. exact Hflag.
    - inversion Hres; subst; assumption. }
  destruct (stop_monitoring_cases E' t1)
    as (r & t2 & Hstop & [(Hoff & _)|(_ & -> & Hst & Hd & Hm & _ & Hnot)]);
    [congruence|].
  rewrite Hstop. simpl. auto.
Qed.

Lemma stop_after_start_witness :
  fst (stop_monitoring sample_engine
         (snd (start_monitoring sample_engine false (init true ∅)))) = Ok true.
Proof.
  apply (stop_after_start sample_engine sample_engine false (init true ∅)).
  reflexivity.
Defined.

(** ** Frame: the other settings *)

(** X6. No handler touches a setting other than the watch threshold: for
    every other key the store reads after the run as it did before. *)
Theorem other_settings_untouched (E : Engine) (a : action) (t : Tray) (key : string) :
  key <> threshold_key ->
  settings (snd (run_action E a t)) !! key = settings t !! key.
Proof.
  intros Hkey.
  assert (Hout : forall v t', threshold_outcome E v t t' ->
                              settings t' !! key = settings t !! key).
  { intros v t' Hout. destruct (threshold_outcome_settings E v t t' Hout) as [->| ->];
      [reflexivity|]. apply store_after_other. exact Hkey. }
  destruct a as [manual| | |p|].
  - rewrite run_action_start.
    destruct (start_monitoring_cases E manual t)
      as (r & t' & Hr & [(_ & _ & ->)|(_ & Hres)]); rewrite Hr; simpl; [reflexivity|].
    inversion Hres; subst; congruence.
  - destruct (stop_monitoring_cases E t) as (r & t' & Hr & Hcase).
    unfold run_action. rewrite (run_then_ret _ _ _ _ Hr). simpl.
    destruct Hcase as [(_ & _ & ->)|(_ & _ & _ & _ & _ & Hse & _)]; congruence.
  - destruct (process_backlog_cases E t) as (t' & Hr & _ & Hse & _).
    unfold run_action. rewrite (run_then_ret _ _ _ _ Hr). simpl. congruence.
  - pose proof (_set_preset_threshold_cases E (PyInt p) t) as [Hres Hcase].
    destruct (_set_preset_threshold E (PyInt p) t) as [r t'] eqn:Hr.
    simpl in *. subst r. unfold run_action. rewrite (run_then_ret _ _ _ _ Hr). simpl.
    destruct Hcase as [->|Hc]; [reflexivity|eauto].
  - pose proof (set_custom_watch_threshold_cases E t) as [Hres Hcase].
    destruct (set_custom_watch_threshold E t) as [r t'] eqn:Hr.
    simpl in *. subst r. unfold run_action. rewrite (run_then_ret _ _ _ _ Hr). simpl.
    destruct Hcase as [->|Hc]; [reflexivity|eauto].
Qed.

Lemma other_settings_untouched_witness :
  settings (snd (run_action sample_engine (SetPresetThreshold 90)
                   (init false (<["language" := PyStr "en"]> ∅)))) !! "language"
  = Some (PyStr "en").
Proof.
  rewrite (other_settings_untouched sample_engine (SetPresetThreshold 90)
             (init false (<["language" := PyStr "en"]> ∅)) "language").
  - reflexivity.
  - discriminate.
Defined.

(** ** Changing the threshold *)

Lemma _apply_threshold_change_kept (E : Engine) (v : pyval) (t : Tray) :
  v = PyNone \/ py_eq v (stored_threshold t) = true ->
  _apply_threshold_change E v t = (Ok tt, after_calls t [IconUpdate]).
Proof.
  intros Hnoop.
  destruct (_apply_threshold_change_cases E v t) as [Hres Hcase].
  destruct (_apply_threshold_change E v t) as [r t'] eqn:Hrun.
  simpl in *. subst r.
  destruct Hcase as [_ ->|e Hv Hne|Hv Hne]; [reflexivity| |];
    destruct Hnoop as [->|Heq]; congruence.
Qed.

(** X7. When [set_setting] raises, the change is abandoned as a whole:
    the handler returns normally, shows one "Error" notification carrying
    the text of the exception and refreshes the icon; the store, the
    running scrobbler and the status are as before, and no "Settings
    Updated" notification is shown. *)
Theorem failed_write_changes_nothing (E : Engine) (t : Tray) (v : pyval) (e : exn) :
  v <> PyNone -> py_eq v (stored_threshold t) = false ->
  set_setting_error E threshold_key v = Some e ->
  _apply_threshold_change E v t
  = (Ok tt, after_calls t [SetSetting threshold_key v;
                           Notification "Error"
                             ("Failed to set watch threshold: " +:+ exn_msg e);
                           IconUpdate]).
Proof.
  intros Hv Hne Herr.
  destruct (_apply_threshold_change_cases E v t) as [Hres Hcase].
  destruct (_apply_threshold_change E v t) as [r t'] eqn:Hrun.
  simpl in *. subst r.
  destruct Hcase as [[->|Heq] _|e' _ _ Herr' ->|_ _ Hok]; congruence.
Qed.

Lemma failed_write_changes_nothing_witness :
  settings
    (snd (_apply_threshold_change
            {| new_scrobbler := live_scrobbler false;
               scrobbler_initialize := fun s => (true, s);
               scrobbler_start := fun _ => (Ok true, live_scrobbler true);
               scrobbler_stop := fun _ => live_scrobbler false;
               scrobbler_process_backlog := fun _ => Ok (BacklogValue (PyInt 0));
               set_setting_error := fun _ _ => Some (Exn OtherException "disk full");
               store_keeps := fun _ value => Some value;
               _ask_custom_threshold_dialog := fun _ => Ok PyNone;
               dialog_seconds := Some 5%nat |}
            (PyInt 90) running_tray))
  = settings running_tray.
Proof.
  rewrite (failed_write_changes_nothing _ running_tray (PyInt 90)
             (Exn OtherException "disk full"));
    [reflexivity | discriminate | reflexivity | reflexivity].
Defined.

Lemma set_running_threshold_effect (v : pyval) (t : Tray) :
  let t' := snd (set_running_threshold v t) in
  (is_Some (running_threshold t) -> running_threshold t' = Some v) /\
  (running_threshold t = None -> scrobbler t' = scrobbler t) /\
  monitor_stopped t' = monitor_stopped t.
Proof.
  unfold set_running_threshold, running_threshold, backlog_target, monitor_stopped.
  run_monad.
  destruct (scrobbler t) as [s|] eqn:Hs; simpl; rewrite ?Hs;
    [|repeat split; auto; intros [x Hx]; discriminate].
  destruct (monitor s) as [m|] eqn:Hm; simpl; rewrite ?Hs, ?Hm;
    [|repeat split; auto; intros [x Hx]; discriminate].
  destruct (monitor_scrobbler m) as [ms|] eqn:Hms; simpl; rewrite ?Hs, ?Hm, ?Hms;
    [|repeat split; auto; intros [x Hx]; discriminate].
  destruct (completion_threshold ms) as [old|] eqn:Hold; simpl;
    rewrite ?Hs, ?Hm, ?Hms, ?Hold; simpl.
  - repeat split; auto. discriminate.
  - repeat split; auto. intros [x Hx]; discriminate.
Qed.

(** X8. A change for which [set_setting] returns reaches the running
    scrobbler and is announced, whatever the store kept of it: the calls
    made are the write, the "Settings Updated" notification and one icon
    refresh, and a scrobbler that has a [completion_threshold] holds the new
    value afterwards (a scrobbler without one is left as it is), its monitor
    still running or stopped as before. *)
Theorem written_threshold_reaches_scrobbler (E : Engine) (t : Tray) (v : pyval) :
  v <> PyNone -> py_eq v (stored_threshold t) = false ->
  set_setting_error E threshold_key v = None ->
  let t' := snd (_apply_threshold_change E v t) in
  trace t' = trace t ++ [SetSetting threshold_key v;
                         Notification "Settings Updated"
                           ("Watch threshold set to " +:+ py_str v +:+ "%");
                         IconUpdate] /\
  (is_Some (running_threshold t) -> running_threshold t' = Some v) /\
  (running_threshold t = None -> scrobbler t' = scrobbler t) /\
  monitor_stopped t' = monitor_stopped t.
Proof.
  intros Hv Hne Herr.
  assert (Hnone : is_None v = false) by (destruct v; simpl; congruence).
  unfold _apply_threshold_change, get_setting, set_setting. run_monad.
  fold (stored_threshold t). unfold py_ne. rewrite Hnone, Hne, Herr. simpl.
  match goal with
  | |- context [set_running_threshold v ?u] =>
      pose proof (set_running_threshold_effect v u) as (Hset & Hkeep & Hmon);
      pose proof (set_running_threshold_frame v u) as (Hr & _ & _ & _ & _ & _ & Htr & _);
      destruct (set_running_threshold v u) as [[[]|e] u'] eqn:Hu;
      simpl in *; try discriminate
  end.
  split; [|split; [exact Hset|split; [exact Hkeep|exact Hmon]]].
  rewrite Htr, <- !app_assoc. reflexivity.
Qed.

Lemma written_threshold_reaches_scrobbler_witness :
  running_threshold (snd (_apply_threshold_change sample_engine (PyInt 90) running_tray))
  = Some (PyInt 90).
Proof.
  apply (written_threshold_reaches_scrobbler sample_engine running_tray (PyInt 90));
    [discriminate | reflexivity | reflexivity | ].
  exists (PyInt 80). reflexivity.
Defined.

(** X9. Applying the same value again writes nothing, provided the store
    kept the value of the first write: a second [_apply_threshold_change]
    with the value just applied then only refreshes the icon. *)
Theorem apply_threshold_twice (E E' : Engine) (t : Tray) (v : pyval) :
  set_setting_error E threshold_key v = None ->
  store_keeps E threshold_key v = Some v ->
  let t1 := snd (_apply_threshold_change E v t) in
  _apply_threshold_change E' v t1 = (Ok tt, after_calls t1 [IconUpdate]).
Proof.
  intros Herr Hkept. cbv zeta.
  destruct (_apply_threshold_change_cases E v t) as [_ Hcase].
  apply _apply_threshold_change_kept.
  destruct Hcase as [[->|Heq] Ht1|e _ _ Herr' _|_ _ _ Hs]; [auto| |congruence|].
  - right. rewrite Ht1. exact Heq.
  - right. unfold stored_threshold. rewrite Hs. unfold store_after.
    rewrite Hkept, lookup_insert_eq. simpl. apply py_eq_refl.
Qed.

Lemma apply_threshold_twice_witness :
  _apply_threshold_change sample_engine (PyInt 90)
    (snd (_apply_threshold_change sample_engine (PyInt 90) running_tray))
  = (Ok tt, after_calls (snd (_apply_threshold_change sample_engine (PyInt 90) running_tray))
              [IconUpdate]).
Proof.
  apply (apply_threshold_twice sample_engine sample_engine running_tray (PyInt 90));
    reflexivity.
Defined.

(** A store that does not keep the value is written to again. *)
Example apply_threshold_twice_rejected :
  let t1 := snd (_apply_threshold_change sample_engine (PyInt 150) running_tray) in
  trace (snd (_apply_threshold_change sample_engine (PyInt 150) t1))
  = trace t1 ++ [SetSetting "watch_completion_threshold" (PyInt 150);
                 Notification "Settings Updated" "Watch threshold set to 150%";
                 IconUpdate].
Proof. reflexivity. Qed.

(** X10. A dialog that is cancelled and a dialog that raises are handled
    alike: when the dialog thread is done within the 60 seconds and has no
    value, the handler returns normally, refreshes the icon and does
    nothing else; in particular it shows no notification. *)
Theorem dialog_failure_is_cancel (E : Engine) (t : Tray) (d : nat) :
  dialog_seconds E = Some d -> (d <= 60)%nat ->
  (_ask_custom_threshold_dialog E (stored_threshold t) = Ok PyNone \/
   exists e, _ask_custom_threshold_dialog E (stored_threshold t) = Raise e) ->
  set_custom_watch_threshold E t = (Ok 0, after_calls t [IconUpdate]).
Proof.
  intros Hd Hle Hdialog.
  assert (Hvalue : _ask_in_thread E (stored_threshold t) = PyNone).
  { unfold _ask_in_thread. destruct Hdialog as [->|[e ->]]; reflexivity. }
  unfold set_custom_watch_threshold, _process_result, get_setting, result_queue_get.
  run_monad. fold (stored_threshold t). rewrite Hd.
  destruct (Nat.leb_spec d 60); [|lia]. simpl. rewrite Hvalue.
  rewrite (_apply_threshold_change_kept E PyNone t (or_introl eq_refl)).
  reflexivity.
Qed.

Lemma dialog_failure_is_cancel_witness :
  set_custom_watch_threshold
    (with_dialog (fun _ => Raise (Exn OtherException "no display")) (Some 2%nat)
       sample_engine) running_tray
  = (Ok 0, after_calls running_tray [IconUpdate]).
Proof.
  apply (dialog_failure_is_cancel
           (with_dialog (fun _ => Raise (Exn OtherException "no display")) (Some 2%nat)
              sample_engine) running_tray 2);
    [reflexivity | lia | right; eexists; reflexivity].
Defined.

(** ** More on [update_status] *)

Lemma truthy_not_None (v : pyval) : truthy v = true -> py_eq PyNone v = false.
Proof. destruct v; simpl; [discriminate| | |]; reflexivity. Qed.

(** X11. Once something has been scrobbled, a call of [update_status]
    that passes no [last_scrobbled] is never skipped: [None] differs from
    the record, so the call assigns the status and the detail and refreshes
    the icon even when both are already the current ones.  The record
    itself is kept. *)
Theorem update_status_refreshes_after_scrobble
    (t : Tray) (new_status details : string) :
  truthy (last_scrobbled t) = true ->
  update_status new_status details PyNone t
  = (Ok tt, after_calls (with_status_details details (with_status new_status t))
              [IconUpdate]).
Proof.
  intros Hlast. unfold update_status. run_monad.
  unfold py_ne. rewrite (truthy_not_None _ Hlast). simpl.
  rewrite !orb_true_r. reflexivity.
Qed.

Lemma update_status_refreshes_after_scrobble_witness :
  trace (snd (update_status "running" "" PyNone
                (with_last_scrobbled (PyStr "Inception (2010)") running_tray)))
  = trace running_tray ++ [IconUpdate].
Proof.
  rewrite (update_status_refreshes_after_scrobble
             (with_last_scrobbled (PyStr "Inception (2010)") running_tray) "running" "");
    reflexivity.
Defined.

(** X12. Repeating a call of [update_status] adds nothing, provided the
    [last_scrobbled] passed is truthy or equals the record: the second call
    finds all three values in place and returns the state as it is. *)
Theorem update_status_twice (t : Tray) (new_status details : string) (last : pyval) :
  truthy last = true \/ py_eq last (last_scrobbled t) = true ->
  let t1 := snd (update_status new_status details last t) in
  update_status new_status details last t1 = (Ok tt, t1).
Proof.
  intros Hlast. cbv zeta.
  pose proof (update_status_sets new_status details last t) as (_ & Hst & Hd).
  assert (Heq : py_eq last
                  (last_scrobbled (snd (update_status new_status details last t))) = true).
  { unfold update_status. run_monad. unfold py_ne.
    destruct (py_eq last (last_scrobbled t)) eqn:Heq.
    - destruct (negb (String.eqb new_status (status t))
                || negb (String.eqb details (status_details t))); simpl;
        [|exact Heq].
      destruct (truthy last); simpl; [apply py_eq_refl|exact Heq].
    - destruct Hlast as [Htruthy|Habs]; [|discriminate].
      rewrite orb_true_r, Htruthy. simpl. apply py_eq_refl. }
  destruct (update_status new_status details last t) as [r t1]. simpl in *.
  unfold update_status. run_monad. unfold py_ne.
  rewrite Hst, Hd, Heq, !String.eqb_refl. reflexivity.
Qed.

Lemma update_status_twice_witness :
  update_status "running" "" (PyStr "Inception (2010)")
    (snd (update_status "running" "" (PyStr "Inception (2010)") running_tray))
  = (Ok tt, snd (update_status "running" "" (PyStr "Inception (2010)") running_tray)).
Proof.
  apply (update_status_twice running_tray "running" "" (PyStr "Inception (2010)")).
  left. reflexivity.
Defined.

(** ** More on the backlog handler *)

Lemma _process_body_notifies (E : Engine) (t : Tray) :
  exists r evs, _process_body E t = (r, after_calls t evs) /\
    match r with
    | Ok _ => exists message, notifications evs = [Notification "simkl-mps" message]
    | Raise _ => notifications evs = []
    end.
Proof.
  unfold _process_body. unfold bind at 1.
  destruct (backlog_target t) as [ms|] eqn:Htarget.
  - rewrite (call_process_backlog_target E t ms Htarget).
    destruct (scrobbler_process_backlog E ms) as [[d|v]|e0].
    + unfold py_gt_0.
      destruct (as_int (default (PyInt 0) (d !! "processed"))) as [p|]; run_monad;
        [|eexists _, [BacklogRun]; split; [reflexivity|reflexivity]].
      destruct (0 <? p); simpl;
        [eexists _, [BacklogRun; _]; split;
           [unfold after_calls, with_trace; simpl; rewrite <- app_assoc; reflexivity
           |eexists; reflexivity]|].
      destruct (as_int (default (PyInt 0) (d !! "attempted"))) as [n|]; simpl;
        [|eexists _, [BacklogRun]; split; [reflexivity|reflexivity]].
      destruct ((0 <? n) && truthy (default (PyBool false) (d !! "failed"))); simpl;
        (eexists _, [BacklogRun; _]; split;
           [unfold after_calls, with_trace; simpl; rewrite <- app_assoc; reflexivity
           |eexists; reflexivity]).
    + unfold py_gt_0.
      destruct (as_int v) as [n|]; run_monad;
        [|eexists _, [BacklogRun]; split; [reflexivity|reflexivity]].
      destruct (0 <? n); simpl;
        (eexists _, [BacklogRun; _]; split;
           [unfold after_calls, with_trace; simpl; rewrite <- app_assoc; reflexivity
           |eexists; reflexivity]).
    + eexists _, [BacklogRun]. split; [reflexivity|reflexivity].
  - destruct (call_process_backlog_no_target E t Htarget) as [e0 Hcall].
    rewrite Hcall. eexists _, []. rewrite after_calls_nil. split; reflexivity.
Qed.

(** X13. Whatever the engine answers, [process_backlog] returns 0 after
    showing exactly one notification, and it leaves the monitoring flag, the
    settings, the scrobbler object and the last-scrobbled record alone. *)
Theorem process_backlog_notifies_once (E : Engine) (t : Tray) :
  exists t' title message,
    process_backlog E t = (Ok 0, t') /\
    notifications (trace t') = notifications (trace t) ++ [Notification title message] /\
    monitoring_active t' = monitoring_active t /\
    settings t' = settings t /\
    scrobbler t' = scrobbler t /\
    last_scrobbled t' = last_scrobbled t.
Proof.
  destruct (_process_body_notifies E t) as (r & evs & Hbody & Hevs).
  unfold process_backlog, _process. unfold bind at 1. unfold bind at 1.
  unfold try_except. rewrite Hbody.
  destruct r as [[]|e]; run_monad.
  - destruct Hevs as [message Hevs].
    eexists _, "simkl-mps", message. split; [reflexivity|]. simpl.
    rewrite notifications_app, Hevs. repeat split; reflexivity.
  - step_update_status.
    eexists _, "simkl-mps Error", "Failed to process backlog".
    split; [reflexivity|]. simpl. repeat split; try congruence.
    destruct Htr as [Htr|Htr]; rewrite Htr; simpl;
      rewrite ?notifications_app, ?Hevs; simpl; rewrite ?app_nil_r; reflexivity.
Qed.

Lemma update_status_None_run (s d : string) (t : Tray) :
  update_status s d PyNone t
  = if negb (String.eqb s (status t)) || negb (String.eqb d (status_details t))
       || py_ne PyNone (last_scrobbled t)
    then (Ok tt, after_calls (with_status_details d (with_status s t)) [IconUpdate])
    else (Ok tt, t).
Proof.
  unfold update_status, bind, self.
  destruct (negb (String.eqb s (status t)) || negb (String.eqb d (status_details t))
            || py_ne PyNone (last_scrobbled t)); reflexivity.
Qed.

(** X14. "Process Backlog Now" on a tray whose scrobbler (or its monitor,
    or the monitor's scrobbler) does not exist: the engine is not called,
    the attribute error is caught, the failure notification is shown and
    the status becomes "error" with no detail. *)
Theorem process_backlog_without_scrobbler (E : Engine) (t : Tray) :
  backlog_target t = None ->
  exists evs,
    process_backlog E t
    = (Ok 0, after_calls (with_status_details "" (with_status "error" t))
               (evs ++ [Notification "simkl-mps Error" "Failed to process backlog"])) /\
    (evs = [] \/ evs = [IconUpdate]).
Proof.
  intros Htarget.
  destruct (call_process_backlog_no_target E t Htarget) as [e0 Hcall].
  unfold process_backlog, _process, _process_body.
  unfold bind at 1. unfold bind at 1. unfold try_except. unfold bind at 1.
  rewrite Hcall. unfold bind at 1. rewrite update_status_None_run.
  destruct (negb (String.eqb "error" (status t))
            || negb (String.eqb "" (status_details t))
            || py_ne PyNone (last_scrobbled t)) eqn:Hguard;
    unfold show_notification, emit, modify, bind, ret.
  - exists [IconUpdate]. split; [|auto].
    unfold after_calls, with_trace. simpl. rewrite <- app_assoc. reflexivity.
  - exists []. split; [|auto].
    apply orb_false_elim in Hguard as [Hguard _].
    apply orb_false_elim in Hguard as [Hs Hd].
    apply negb_false_iff, String.eqb_eq in Hs.
    apply negb_false_iff, String.eqb_eq in Hd.
    destruct t; simpl in *; subst. reflexivity.
Qed.

Lemma process_backlog_without_scrobbler_witness :
  status (snd (process_backlog sample_engine (init false ∅))) = "error".
Proof.
  destruct (process_backlog_without_scrobbler sample_engine (init false ∅) eq_refl)
    as (evs & Hrun & _).
  rewrite Hrun. reflexivity.
Defined.

(** ** The monitoring entry of the menu *)

(** X15. While monitoring is running but the status is not "running" (a
    backlog run has failed), the menu offers "Start Monitoring" and not
    "Pause Monitoring", and the start it offers returns at once: the state,
    the "error" status included, stays exactly as it is. *)
Theorem start_entry_is_idle_while_monitoring (E : Engine) (t : Tray) :
  still_active t = true -> status t <> "running" ->
  In ("Start Monitoring", StartMonitoring true) (_build_pystray_menu_items t) /\
  ~ In StopMonitoring (map snd (_build_pystray_menu_items t)) /\
  run_action E (StartMonitoring true) t = (Ok tt, t).
Proof.
  intros Hact Hstatus.
  assert (Hne : String.eqb (status t) "running" = false).
  { apply not_true_is_false. intros H. apply String.eqb_eq in H. contradiction. }
  unfold _build_pystray_menu_items. rewrite Hne. simpl. split; [auto|]. split.
  - intros [H|[H|[H|[H|[H|[H|[]]]]]]]; discriminate.
  - destruct (start_monitoring_cases E true t)
      as (r & t' & Hrun & [(_ & -> & ->)|(Hf & _)]); [|congruence].
    unfold run_action. apply (run_then_ret _ _ _ _ Hrun).
Qed.

Lemma start_entry_is_idle_while_monitoring_witness :
  let failing := with_backlog (fun _ => Raise (Exn OtherException "connection reset"))
                   sample_engine in
  let t := snd (process_backlog failing running_tray) in
  run_action sample_engine (StartMonitoring true) t = (Ok tt, t).
Proof.
  cbv zeta.
  apply (start_entry_is_idle_while_monitoring sample_engine
           (snd (process_backlog
                   (with_backlog (fun _ => Raise (Exn OtherException "connection reset"))
                      sample_engine) running_tray))).
  - reflexivity.
  - discriminate.
Defined.

(** * The icon files *)

Lemma first_existing_app (A : Assets) (l l' : list string) :
  first_existing A (l ++ l')
  = match first_existing A l with
    | Ok None => first_existing A l'
    | r => r
    end.
Proof.
  induction l as [|name l IH]; simpl; [reflexivity|].
  destruct (path_exists A name) as [[|]|e]; auto.
Qed.

(** The four searches are one search through [icon_candidates]. *)
Lemma search_icon_candidates (p : platform) (A : Assets) (status : string) :
  search_icon p A status = first_existing A (icon_candidates p status).
Proof.
  unfold search_icon, icon_candidates. rewrite !first_existing_app.
  destruct (first_existing A (status_sized_icons p status)) as [[n|]|e]; reflexivity.
Qed.

Lemma first_existing_Some (A : Assets) (names : list string) (name : string) :
  first_existing A names = Ok (Some name) ->
  exists before after,
    names = before ++ name :: after /\
    path_exists A name = Ok true /\
    Forall (fun n => path_exists A n = Ok false) before.
Proof.
  induction names as [|n names IH]; simpl; [discriminate|].
  destruct (path_exists A n) as [[|]|e] eqn:Hn; [| |discriminate].
  - intros [= <-]. exists [], names. repeat split; auto.
  - intros H. destruct (IH H) as (before & after & -> & Hname & Hbefore).
    exists (n :: before), after. repeat split; auto.
Qed.

Lemma first_existing_None (A : Assets) (names : list string) :
  first_existing A names = Ok None <->
  Forall (fun n => path_exists A n = Ok false) names.
Proof.
  induction names as [|n names IH]; simpl.
  - split; [constructor|reflexivity].
  - destruct (path_exists A n) as [[|]|e] eqn:Hn.
    + split; [discriminate|]. intros H. inversion H; congruence.
    + rewrite IH. split; [intros H; constructor; auto|intros H; inversion H; auto].
    + split; [discriminate|]. intros H. inversion H; congruence.
Qed.

(** X16. The icon [_get_icon_path] returns is the first existing file in
    its order of preference: a file of [icon_candidates] that exists, with
    every candidate before it checked and found missing. *)
Theorem icon_path_is_first_existing
    (p : platform) (A : Assets) (status path : string) :
  _get_icon_path p A status = Some path ->
  exists before name after,
    icon_candidates p status = before ++ name :: after /\
    path = assets_file A name /\
    path_exists A name = Ok true /\
    Forall (fun n => path_exists A n = Ok false) before.
Proof.
  unfold _get_icon_path. rewrite search_icon_candidates.
  destruct (first_existing A (icon_candidates p status)) as [[name|]|e] eqn:Hsearch;
    [|discriminate|discriminate].
  intros [= <-].
  destruct (first_existing_Some A _ _ Hsearch) as (before & after & Hc & Hname & Hbefore).
  exists before, name, after. auto.
Qed.

Lemma first_existing_Raise (A : Assets) (names : list string) (e : exn) :
  first_existing A names = Raise e ->
  exists before name after,
    names = before ++ name :: after /\
    path_exists A name = Raise e /\
    Forall (fun n => path_exists A n = Ok false) before.
Proof.
  induction names as [|n names IH]; simpl; [discriminate|].
  destruct (path_exists A n) as [[|]|e'] eqn:Hn; [discriminate| |].
  - intros H. destruct (IH H) as (before & name & after & -> & Hname & Hbefore).
    exists (n :: before), name, after. repeat split; auto.
  - intros [= <-]. exists [], n, names. repeat split; auto.
Qed.

Lemma first_existing_stops (A : Assets) (before after : list string) (name : string)
    (r : Res bool) :
  Forall (fun n => path_exists A n = Ok false) before ->
  path_exists A name = r -> r <> Ok false ->
  first_existing A (before ++ name :: after)
  = match r with
    | Ok _ => Ok (Some name)
    | Raise e => Raise e
    end.
Proof.
  intros Hbefore Hname Hr. induction Hbefore as [|n before Hn _ IH]; simpl.
  - rewrite Hname. destruct r as [[|]|e]; congruence.
  - rewrite Hn. exact IH.
Qed.

(** X17. [_get_icon_path] returns [None] in exactly two cases: none of the
    candidate files exists, or a check raised before any file was found
    (the exception is swallowed). *)
Theorem icon_path_is_None (p : platform) (A : Assets) (status : string) :
  _get_icon_path p A status = None <->
  Forall (fun n => path_exists A n = Ok false) (icon_candidates p status) \/
  exists before name after e,
    icon_candidates p status = before ++ name :: after /\
    Forall (fun n => path_exists A n = Ok false) before /\
    path_exists A name = Raise e.
Proof.
  unfold _get_icon_path. rewrite search_icon_candidates.
  destruct (first_existing A (icon_candidates p status)) as [[name|]|e] eqn:Hsearch.
  - split; [discriminate|]. intros H. exfalso.
    destruct H as [Hall|(before & n & after & e & Hc & Hbefore & Hn)].
    + apply first_existing_None in Hall. congruence.
    + rewrite Hc in Hsearch.
      rewrite (first_existing_stops A before after n (Raise e)) in Hsearch;
        auto; discriminate.
  - split; [|reflexivity]. intros _. left. apply first_existing_None. exact Hsearch.
  - split; [|reflexivity]. intros _. right.
    destruct (first_existing_Raise A _ e Hsearch) as (before & n & after & Hc & Hn & Hb).
    exists before, n, after, e. auto.
Qed.

Lemma first_existing_finds (A : Assets) (names : list string) :
  Forall (fun n => exists b, path_exists A n = Ok b) names ->
  Exists (fun n => path_exists A n = Ok true) names ->
  exists name, In name names /\ first_existing A names = Ok (Some name).
Proof.
  induction 1 as [|n names [b Hb] _ IH]; intros Hex; [inversion Hex|].
  simpl. rewrite Hb. destruct b.
  - exists n. auto.
  - inversion Hex as [? ? Hn|? ? Hrest]; subst; [congruence|].
    destruct (IH Hrest) as (name & Hin & Hfound). exists name. auto.
Qed.

(** X18. An icon of the status wins over a generic one: when the checks
    on the status-specific names do not raise and one of these files
    exists, the icon returned is a status-specific file, whatever generic
    icons exist. *)
Theorem status_icon_preferred (p : platform) (A : Assets) (status : string) :
  Forall (fun n => exists b, path_exists A n = Ok b)
    (status_sized_icons p status ++ status_icons p status) ->
  Exists (fun n => path_exists A n = Ok true)
    (status_sized_icons p status ++ status_icons p status) ->
  exists name,
    In name (status_sized_icons p status ++ status_icons p status) /\
    _get_icon_path p A status = Some (assets_file A name).
Proof.
  intros Hall Hex.
  destruct (first_existing_finds A _ Hall Hex) as (name & Hin & Hfound).
  exists name. split; [exact Hin|].
  unfold _get_icon_path. rewrite search_icon_candidates.
  unfold icon_candidates. rewrite app_assoc, first_existing_app, Hfound. reflexivity.
Qed.

Lemma status_icon_preferred_witness :
  exists name,
    In name (status_sized_icons Win32 "running" ++ status_icons Win32 "running") /\
    _get_icon_path Win32 (assets_with ["simkl-mps-256.ico"; "simkl-mps-running.png"])
      "running" = Some (assets_file
                          (assets_with ["simkl-mps-256.ico"; "simkl-mps-running.png"]) name).
Proof.
  apply (status_icon_preferred Win32
           (assets_with ["simkl-mps-256.ico"; "simkl-mps-running.png"]) "running").
  - apply Forall_forall. intros n _. eexists. reflexivity.
  - apply Exists_exists. exists "simkl-mps-running.png". split; [|reflexivity].
    vm_compute. repeat (first [left; reflexivity | right]).
Defined.

Lemma icon_path_is_first_existing_witness :
  exists before name after,
    icon_candidates Win32 "error" = before ++ name :: after /\
    "assets/simkl-mps-32.png"
    = assets_file (assets_with ["simkl-mps-32.png"; "simkl-mps.ico"]) name /\
    path_exists (assets_with ["simkl-mps-32.png"; "simkl-mps.ico"]) name = Ok true /\
    Forall (fun n => path_exists (assets_with ["simkl-mps-32.png"; "simkl-mps.ico"]) n
                     = Ok false) before.
Proof.
  apply (icon_path_is_first_existing Win32
           (assets_with ["simkl-mps-32.png"; "simkl-mps.ico"]) "error").
  reflexivity.
Defined.

(** On Windows the larger size and, at one size, the [.ico] come first. *)
Example windows_prefers_large_ico :
  _get_icon_path Win32
    (assets_with ["simkl-mps-running-128.ico"; "simkl-mps-running-256.png";
                  "simkl-mps-running-256.ico"]) "running"
  = Some "assets/simkl-mps-running-256.ico"
  /\ _get_icon_path Darwin
       (assets_with ["simkl-mps-running-256.png"; "simkl-mps-running-256.ico";
                     "simkl-mps-running-512.ico"]) "running"
     = Some "assets/simkl-mps-running-512.ico".
Proof. split; reflexivity. Qed.

(** * The fallback image *)

(** X19. The geometry of the fallback image, for every size: the ring is
    at least one pixel thick; its bounding box is well formed exactly when
    the size is at least 4; and the disc drawn without the font lies within
    the ring's box exactly when the size is at least 8. *)
Theorem fallback_image_geometry (status : string) (size : Z) (font_found : bool) :
  Forall (fun d =>
            match d with
            | Ring box _ width =>
                1 <= width /\ (box_ok box <-> 4 <= size)
            | Disc box _ => box_within box (ring_box size) <-> 8 <= size
            | Letter _ _ => True
            end)
    (_create_fallback_image status size font_found).
Proof.
  unfold _create_fallback_image. destruct (fallback_colors status) as [color ring_color].
  constructor; [|constructor; [|constructor]].
  - unfold box_ok, ring_box, ring_thickness. simpl.
    split; [lia|]. split; intros H; Z.div_mod_to_equations; lia.
  - destruct font_found; [exact I|].
    unfold box_within, disc_box, ring_box, ring_thickness. simpl.
    split; intros H; Z.div_mod_to_equations; lia.
Qed.

Example fallback_image_default :
  _create_fallback_image "error" 128 false
  = [Ring ((12, 12), (116, 116)) (189, 22, 29) 6;
     Disc ((32, 32), (96, 96)) (237, 28, 36)].
Proof. reflexivity. Qed.
